(** * cate: transaction construction for a cross-chain atomic swap

    Shallow embedding of [src/cate/tx.py] and of the parts of
    python-bitcoinlib ([bitcoin.core], [bitcoin.core.script]) that it calls.

    The module is Python 2 code ([from StringIO import StringIO]); byte
    strings are [str], modelled as lists of bytes.  Exceptions are values of
    [exn], and a computation that may raise returns [result A]. *)

From Stdlib Require Import ZArith Lia List.
From Stdlib Require Import Strings.Byte.
From stdpp Require Import gmap strings list.

Local Open Scope Z_scope.

(** ** Exceptions *)

(** The exception classes that can leave the functions of [tx.py].
    [TradeError] and [FundsError] are the two classes of the repository's
    [error] module that the source raises; the others are Python's and
    python-bitcoinlib's. *)
Inductive exn_class : Set :=
| TradeError
| FundsError
| ValueError
| IndexError
| NameError
| AttributeError
| CScriptInvalidError
| CScriptTruncatedPushDataError
| JSONRPCException.

Record exn : Set := Raise { exn_kind : exn_class; exn_msg : string }.

Definition result (A : Type) : Type := exn + A.

Definition ok {A} (a : A) : result A := inr a.
Definition raise {A} (c : exn_class) (msg : string) : result A :=
  inl (Raise c msg).

Definition rbind {A B} (m : result A) (k : A -> result B) : result B :=
  match m with
  | inl e => inl e
  | inr a => k a
  end.

Notation "'do' x <- m ; k" := (rbind m (fun x => k))
  (at level 10, x name, m at level 100, k at level 200,
   format "'[v' 'do'  x  <-  m ; '/' k ']'").
Notation "'do' ' p <- m ; k" := (rbind m (fun x => match x with p => k end))
  (at level 10, p pattern, m at level 100, k at level 200).

Global Instance exn_class_eq_dec : EqDecision exn_class.
Proof. solve_decision. Defined.

(** ** Byte strings *)

Definition bytes : Set := list byte.

Global Instance byte_eq_dec : EqDecision byte := Byte.byte_eq_dec.

(** [bord]/[bchr]: a byte as a number and back.  [bchr] is only applied to
    arguments below 256; it reduces modulo 256 to stay total. *)
Definition bord (b : byte) : Z := Z.of_N (Byte.to_N b).

Definition bchr (n : Z) : byte :=
  match Byte.of_N (Z.to_N (n mod 256)) with
  | Some b => b
  | None => x00
  end.

(** [struct.pack('<H', n)] and [struct.pack('<I', n)]. *)
Definition pack_le16 (n : Z) : bytes :=
  [bchr (n mod 256); bchr (n / 256 mod 256)].

Definition pack_le32 (n : Z) : bytes :=
  [bchr (n mod 256); bchr (n / 256 mod 256);
   bchr (n / 65536 mod 256); bchr (n / 16777216 mod 256)].

(** A little-endian length field read back, as [raw_iter] does it:
    [bord(s[i]) + (bord(s[i+1]) << 8) + ...]. *)
Definition unpack_le (bs : bytes) : Z :=
  fold_right (fun b acc => bord b + 256 * acc) 0 bs.

Definition blen (d : bytes) : Z := Z.of_nat (length d).

(** ** bitcoin.core.script *)

Module Script.

(** A script is its serialisation: [CScript] is a subclass of [bytes]. *)
Definition CScript : Set := bytes.

Definition OP_0 : byte := x00.
Definition OP_PUSHDATA1 : byte := x4c.
Definition OP_PUSHDATA2 : byte := x4d.
Definition OP_PUSHDATA4 : byte := x4e.
Definition OP_1NEGATE : byte := x4f.
Definition OP_1 : byte := x51.
Definition OP_2 : byte := x52.
Definition OP_IF : byte := x63.
Definition OP_ELSE : byte := x67.
Definition OP_ENDIF : byte := x68.
Definition OP_2DUP : byte := x6e.
Definition OP_DUP : byte := x76.
Definition OP_EQUAL : byte := x87.
Definition OP_EQUALVERIFY : byte := x88.
Definition OP_HASH160 : byte := xa9.
Definition OP_HASH256 : byte := xaa.
Definition OP_CHECKSIG : byte := xac.
Definition OP_CHECKSIGVERIFY : byte := xad.
Definition OP_CHECKMULTISIG : byte := xae.

Definition SIGHASH_ALL : Z := 1.

(** [CScriptOp.encode_op_pushdata] *)
Definition encode_op_pushdata (d : bytes) : result bytes :=
  if blen d <? 0x4c then ok (bchr (blen d) :: d)
  else if blen d <=? 0xff then ok (OP_PUSHDATA1 :: bchr (blen d) :: d)
  else if blen d <=? 0xffff then ok (OP_PUSHDATA2 :: pack_le16 (blen d) ++ d)
  else if blen d <=? 0xffffffff then
    ok (OP_PUSHDATA4 :: pack_le32 (blen d) ++ d)
  else raise ValueError "Data too long to encode in a PUSHDATA op".

(** Data of at most 0xffffffff bytes can be pushed. *)
Definition pushable (d : bytes) : Prop := blen d <= 0xffffffff.

(** [CScriptOp.encode_op_n], for [0 <= n <= 16]. *)
Definition encode_op_n (n : Z) : byte :=
  if n =? 0 then OP_0 else bchr (bord OP_1 + n - 1).

(** The elements a script is built from: [CScript([...])] takes opcodes,
    Python integers and byte strings. *)
Inductive item : Set :=
| IOp (op : byte)
| IInt (n : Z)
| IBytes (d : bytes).

Section Coerce.
(** [bitcoin.core._bignum.bn2vch], used for integers outside -1..16;
    the source of [tx.py] only writes 0 and 2. *)
Variable bn2vch : Z -> bytes.

(** [CScript.__coerce_instance] *)
Definition coerce_instance (other : item) : result bytes :=
  match other with
  | IOp op => ok [op]
  | IInt n =>
      if (0 <=? n) && (n <=? 16) then ok [encode_op_n n]
      else if n =? -1 then ok [OP_1NEGATE]
      else encode_op_pushdata (bn2vch n)
  | IBytes d => encode_op_pushdata d
  end.

(** [CScript(iterable)]: the join of the coerced elements, coerced in
    order, so the first element that cannot be encoded raises. *)
Fixpoint CScript_new (value : list item) : result CScript :=
  match value with
  | [] => ok []
  | x :: rest =>
      do b <- coerce_instance x;
      do bs <- CScript_new rest;
      ok (b ++ bs)
  end.

(** What [raw_iter] is to yield as the data of an element of
    [CScript([...])]: a byte string is pushed as it is, 0 becomes [OP_0],
    which pushes the empty string, and the other small integers and the
    opcodes push nothing. *)
Definition pushes (x : item) : option bytes :=
  match x with
  | IOp _ => None
  | IInt n =>
      if n =? 0 then Some []
      else if (0 <=? n) && (n <=? 16) then None
      else if n =? -1 then None
      else Some (bn2vch n)
  | IBytes d => Some d
  end.
End Coerce.

(** An element that is not itself a PUSHDATA opcode written as [CScriptOp]. *)
Definition plain_op (x : item) : Prop :=
  match x with
  | IOp op => bord OP_PUSHDATA4 < bord op
  | _ => True
  end.

(** One element as [CScript.raw_iter] yields it: the opcode, the pushed
    data ([None] for an opcode that pushes nothing) and the index of the
    opcode in the script. *)
Definition raw_item : Set := (byte * option bytes * nat)%type.

(** The length field that follows a PUSHDATA opcode: the number of bytes
    the field takes and the data size it holds. *)
Definition read_datasize (opcode : byte) (rest : bytes)
  : result (nat * nat) :=
  if bord opcode <? bord OP_PUSHDATA1 then ok (0%nat, Z.to_nat (bord opcode))
  else if bord opcode =? bord OP_PUSHDATA1 then
    match rest with
    | [] => raise CScriptInvalidError "PUSHDATA1: missing data length"
    | b :: _ => ok (1%nat, Z.to_nat (bord b))
    end
  else if bord opcode =? bord OP_PUSHDATA2 then
    if (length rest <? 2)%nat
    then raise CScriptInvalidError "PUSHDATA2: missing data length"
    else ok (2%nat, Z.to_nat (unpack_le (firstn 2 rest)))
  else
    if (length rest <? 4)%nat
    then raise CScriptInvalidError "PUSHDATA4: missing data length"
    else ok (4%nat, Z.to_nat (unpack_le (firstn 4 rest))).

(** [CScript.raw_iter] is a generator: it yields elements one by one and
    may raise when asked for the next one.  [raw_iter_from] returns the
    elements yielded from index [i] on and the exception that ends the
    iteration, if any.  Every round consumes at least the opcode byte, so
    [length s] rounds are enough ([raw_iter]), and more fuel than that
    changes nothing ([ScriptFacts.raw_iter_from_fuel]). *)
Fixpoint raw_iter_from (fuel : nat) (i : nat) (s : bytes)
  : list raw_item * option exn :=
  match fuel, s with
  | _, [] => ([], None)
  | O, _ :: _ => ([], None)
  | S fuel, opcode :: rest =>
      if bord OP_PUSHDATA4 <? bord opcode then
        let '(items, e) := raw_iter_from fuel (S i) rest in
        ((opcode, None, i) :: items, e)
      else
        match read_datasize opcode rest with
        | inl e => ([], Some e)
        | inr (hdr, datasize) =>
            let data := firstn datasize (skipn hdr rest) in
            if (length data <? datasize)%nat then
              ([], Some (Raise CScriptTruncatedPushDataError "truncated data"))
            else
              let '(items, e) :=
                raw_iter_from fuel (S i + hdr + datasize)
                  (skipn datasize (skipn hdr rest)) in
              ((opcode, Some data, i) :: items, e)
        end
  end.

Definition raw_iter (s : CScript) : list raw_item * option exn :=
  raw_iter_from (length s) 0 s.

(** [[data for (opcode, data, sop_idx) in s.raw_iter()]]: the data of the
    elements of a script, when the iteration ends without raising. *)
Definition elements (s : CScript) : result (list (option bytes)) :=
  match raw_iter s with
  | (items, None) => ok (map (fun it : raw_item => it.1.2) items)
  | (_, Some e) => inl e
  end.

End Script.

(** ** bitcoin.core: transactions *)

Module Core.
Import Script.

(** An address is the byte string of its public-key hash: [CBase58Data]
    is a subclass of [bytes], compared and pushed as such. *)
Definition Address : Set := bytes.

(** A private key as the wallet hands it out ([CBitcoinSecret]). *)
Definition CKey : Set := bytes.

Record COutPoint : Set := mkOutPoint { hash : bytes; n : Z }.

Record CTxIn : Set :=
  mkTxIn { prevout : COutPoint; scriptSig : CScript; nSequence : Z }.

Record CTxOut : Set := mkTxOut { nValue : Z; scriptPubKey : CScript }.

Record CTransaction : Set :=
  mkTx { vin : list CTxIn; vout : list CTxOut; nLockTime : Z; nVersion : Z }.

(** [CMutableTxIn(prevout, scriptSig=CScript(), nSequence=0xffffffff)].
    The constructor refuses a sequence number outside 0..0xffffffff; the
    source passes the default or the constant 1. *)
Definition CMutableTxIn (prevout : COutPoint) (nSequence : Z) : CTxIn :=
  mkTxIn prevout [] nSequence.

(** The range check of the transaction constructors. *)
Definition check_nLockTime (nLockTime : Z) : result unit :=
  if (0 <=? nLockTime) && (nLockTime <=? 0xffffffff) then ok tt
  else raise ValueError
         "CTransaction: nLockTime must be in range 0x0 to 0xffffffff".

(** [CMutableTransaction(vin, vout, nLockTime=0, nVersion=1)] *)
Definition CMutableTransaction (vin : list CTxIn) (vout : list CTxOut)
    (nLockTime nVersion : Z) : result CTransaction :=
  do _ <- check_nLockTime nLockTime;
  ok (mkTx vin vout nLockTime nVersion).

(** [seq[i]] on a Python list or tuple. *)
Definition index {A} (l : list A) (i : nat) : result A :=
  match l !! i with
  | Some x => ok x
  | None => raise IndexError "list index out of range"
  end.

(** The functions of python-bitcoinlib and of the interpreter that the
    source calls and that are taken as given. *)
Class BitcoinLib : Type := {
  (** [bitcoin.core._bignum.bn2vch] *)
  bn2vch : Z -> bytes;
  (** [bitcoin.core.b2x]: the hexadecimal text of a byte string; under
      Python 2 a byte string itself, which [CScript] pushes *)
  b2x : bytes -> bytes;
  (** the builtin [bytes] applied to a list of integers (what it returns
      differs between Python 2 and Python 3) *)
  py_bytes : list Z -> bytes;
  (** [bitcoin.core.script.SignatureHash(script, txTo, inIdx, hashtype)] *)
  SignatureHash : CScript -> CTransaction -> Z -> Z -> bytes;
  (** [CTransaction.GetHash]; a 32-byte digest *)
  GetHash : CTransaction -> bytes;
  (** [CBitcoinAddress.to_scriptPubKey] *)
  to_scriptPubKey : Address -> CScript;
  (** [CBitcoinSecret.sign] and [CBitcoinSecret.pub] *)
  key_sign : CKey -> bytes -> bytes;
  key_pub : CKey -> bytes;
  (** [datetime.utcfromtimestamp(t).strftime('%Y-%m-%d %H:%M:%S')], which
      is defined on every lock time a transaction can carry
      (0..0xffffffff) *)
  strftime_utc : Z -> string
}.

(** An unspent output as [listunspent] reports it: a dictionary with the
    keys ['outpoint'] and ['amount']. *)
Record UnspentOutput : Set :=
  mkUnspent { outpoint : COutPoint; amount : Z }.

(** What [signrawtransaction] answers: the keys ['tx'] and ['complete']. *)
Record SignResult : Set := mkSigned { tx : CTransaction; complete : bool }.

(** The RPC proxy of the wallet daemon.  Every call may raise. *)
Record Proxy : Type := {
  listunspent : Z -> result (list UnspentOutput);
  getrawchangeaddress : result Address;
  signrawtransaction : CTransaction -> result SignResult;
  dumpprivkey : Address -> result CKey
}.

(** The fee-rate provider. *)
Record FeeRate : Type := { get_fee : Z -> Z }.

(** A [datetime] in UTC, as seconds since the epoch and microseconds. *)
Record datetime : Set := mkDatetime { epoch_seconds : Z; microsecond : Z }.

(** [dt + datetime.timedelta(hours=h)] *)
Definition add_hours (dt : datetime) (h : Z) : datetime :=
  mkDatetime (epoch_seconds dt + h * 3600) (microsecond dt).

(** [calendar.timegm(dt.timetuple())]: the time tuple has no microseconds. *)
Definition timegm_timetuple (dt : datetime) : Z := epoch_seconds dt.

End Core.

(** ** The object store *)

(** Transactions and their inputs are Python objects: two names may refer
    to one object, and an assignment to an attribute changes the object for
    every holder.  Where that matters ([sign_tx2]) a transaction is a
    location in a store of objects. *)
Module Store.
Import Script Core.

Definition loc : Set := positive.

(** A transaction object holds references to its input objects; outputs
    are never assigned to and are kept by value. *)
Inductive obj : Set :=
| OTxIn (txin : CTxIn)
| OTx (vin : list loc) (vout : list CTxOut) (nLockTime nVersion : Z).

Abbreviation heap := (gmap loc obj).

(** Computations that read and change the store and may raise. *)
Definition Heap (A : Type) : Type := heap -> result A * heap.

Definition hret {A} (a : A) : Heap A := fun h => (ok a, h).

Definition hbind {A B} (m : Heap A) (k : A -> Heap B) : Heap B :=
  fun h =>
    match m h with
    | (inl e, h') => (inl e, h')
    | (inr a, h') => k a h'
    end.

Definition hlift {A} (r : result A) : Heap A := fun h => (r, h).

Definition hraise {A} (c : exn_class) (msg : string) : Heap A :=
  hlift (raise c msg).

Notation "'hdo' x <- m ; k" := (hbind m (fun x => k))
  (at level 10, x name, m at level 100, k at level 200,
   format "'[v' 'hdo'  x  <-  m ; '/' k ']'").
Notation "'hdo' ' p <- m ; k" :=
  (hbind m (fun x => match x with p => k end))
  (at level 10, p pattern, m at level 100, k at level 200).

(** A new object gets a location that is not in use. *)
Definition alloc (o : obj) : Heap loc :=
  fun h => let l := fresh (dom h) in (ok l, <[l := o]> h).

Definition load_txin (l : loc) : Heap CTxIn :=
  fun h =>
    match h !! l with
    | Some (OTxIn txin) => (ok txin, h)
    | _ => (raise AttributeError "object is not a transaction input", h)
    end.

Definition load_tx (l : loc) : Heap (list loc * list CTxOut * Z * Z) :=
  fun h =>
    match h !! l with
    | Some (OTx vin vout nLockTime nVersion) =>
        (ok (vin, vout, nLockTime, nVersion), h)
    | _ => (raise AttributeError "object is not a transaction", h)
    end.

(** [txin.scriptSig = script] *)
Definition store_scriptSig (l : loc) (script : CScript) : Heap unit :=
  hdo txin <- load_txin l;
  fun h => (ok tt,
            <[l := OTxIn (mkTxIn (prevout txin) script (nSequence txin))]> h).

Fixpoint hmap {A B} (f : A -> Heap B) (l : list A) : Heap (list B) :=
  match l with
  | [] => hret []
  | x :: rest =>
      hdo y <- f x;
      hdo ys <- hmap f rest;
      hret (y :: ys)
  end.

(** The transaction at [l] as a value: what a function that only reads
    the object (serialisation, [SignatureHash]) sees. *)
Definition snapshot (l : loc) : Heap CTransaction :=
  hdo '(vin, vout, nLockTime, nVersion) <- load_tx l;
  hdo txins <- hmap load_txin vin;
  hret (mkTx txins vout nLockTime nVersion).

(** [CMutableTxIn.from_txin(txin)]: a new input object with the fields
    of [txin]. *)
Definition from_txin (l : loc) : Heap loc :=
  hdo txin <- load_txin l;
  alloc (OTxIn (mkTxIn (prevout txin) (scriptSig txin) (nSequence txin))).

(** [CMutableTransaction.from_tx(tx)]: "create a fully mutable copy of a
    pre-existing transaction": every input is copied with [from_txin],
    and the copies go into a new transaction object. *)
Definition from_tx (l : loc) : Heap loc :=
  hdo '(vin, vout, nLockTime, nVersion) <- load_tx l;
  hdo vin' <- hmap from_txin vin;
  hdo _ <- hlift (check_nLockTime nLockTime);
  alloc (OTx vin' vout nLockTime nVersion).

End Store.

(** ** cate/tx.py *)

Module Tx.
Import Script Core.
Import (notations) Store.

Section Functions.
Context `{BitcoinLib}.

(** [assert_tx2_valid(tx2)].  The function reads the clock twice, once
    for each bound: [utcnow_min] and [utcnow_max] are the two readings
    of [datetime.datetime.utcnow()]. *)
Definition assert_tx2_valid (utcnow_min utcnow_max : datetime)
    (tx2 : CTransaction) : result unit :=
  let lock_min_datetime := add_hours utcnow_min 12 in
  let lock_max_datetime := add_hours utcnow_max 72 in
  let lock_time := nLockTime tx2 in
  if lock_time <? timegm_timetuple lock_min_datetime then
    raise TradeError
      ("TX2 lock time is " +:+ strftime_utc lock_time
       +:+ " which is less than 24 hours in the future.")
  else if lock_time >? timegm_timetuple lock_max_datetime then
    raise TradeError
      ("TX2 lock time is " +:+ strftime_utc lock_time
       +:+ " which is more than 72 hours in the future.")
  else if negb (length (vin tx2) =? 1)%nat then
    raise TradeError "TX2 does not have exactly one input."
  else if negb (length (vout tx2) =? 1)%nat then
    raise TradeError "TX2 does not exactly one output."
  else
    do txin <- index (vin tx2) 0;
    if nSequence txin =? 0xffffffff then
      raise TradeError
        "TX2 input's sequence is final; must be less than MAX_INT."
    else ok tt.

(** The messages of the five [raise] statements of [assert_tx2_valid],
    in the order of the checks. *)
Definition msg_lock_min (lock_time : Z) : string :=
  "TX2 lock time is " +:+ strftime_utc lock_time
  +:+ " which is less than 24 hours in the future.".

Definition msg_lock_max (lock_time : Z) : string :=
  "TX2 lock time is " +:+ strftime_utc lock_time
  +:+ " which is more than 72 hours in the future.".

Definition msg_inputs : string := "TX2 does not have exactly one input.".

Definition msg_outputs : string := "TX2 does not exactly one output.".

Definition msg_final : string :=
  "TX2 input's sequence is final; must be less than MAX_INT.".

(** The class of the exception a call raised, if it raised. *)
Definition raised_class {A} (r : result A) : option exn_class :=
  match r with
  | inl e => Some (exn_kind e)
  | inr _ => None
  end.

(** The input that [find_inputs] makes of an unspent output (the
    element its loop appends), and the total value of a list of
    unspent outputs. *)
Definition txin_of (txout : UnspentOutput) : CTxIn :=
  CMutableTxIn (outpoint txout) 0xffffffff.

Definition sum_amounts (unspent : list UnspentOutput) : Z :=
  foldr (fun txout acc => amount txout + acc) 0 unspent.

(** The [for] loop of [find_inputs]: [total_in] and [txins] are the
    loop's variables, the list is what is left of [listunspent]. *)
Fixpoint find_inputs_loop (unspent : list UnspentOutput) (quantity : Z)
    (total_in : Z) (txins : list CTxIn) : list CTxIn * Z :=
  match unspent with
  | [] => (txins, total_in)
  | txout :: rest =>
      let total_in := total_in + amount txout in
      let txins := txins ++ [CMutableTxIn (outpoint txout) 0xffffffff] in
      if total_in >=? quantity then (txins, total_in)
      else find_inputs_loop rest quantity total_in txins
  end.

(** [find_inputs(proxy, quantity)] *)
Definition find_inputs (proxy : Proxy) (quantity : Z)
  : result (list CTxIn * Z) :=
  do unspent <- listunspent proxy 0;
  let '(txins, total_in) := find_inputs_loop unspent quantity 0 [] in
  if total_in <? quantity then raise FundsError "Insufficient funds."
  else ok (txins, total_in).

(** [build_tx1_cscript(own_address, peer_address, secret_hash)] *)
Definition build_tx1_cscript (own_address peer_address : Address)
    (secret_hash : bytes) : result CScript :=
  CScript_new bn2vch
    [ IOp OP_IF;
        IOp OP_2DUP;
          IOp OP_HASH160; IBytes peer_address; IOp OP_EQUALVERIFY;
          IOp OP_HASH160; IBytes own_address; IOp OP_EQUALVERIFY;
          IInt 2; IOp OP_CHECKMULTISIG;
      IOp OP_ELSE;
        IOp OP_DUP;
          IOp OP_HASH160; IBytes peer_address; IOp OP_EQUALVERIFY;
          IOp OP_CHECKSIGVERIFY;
          IOp OP_HASH256; IBytes (b2x secret_hash); IOp OP_EQUAL;
      IOp OP_ENDIF ].

(** The bytes of the escrow script, given the PUSHDATA encodings of the
    peer address, of the own address and of the secret hash's text. *)
Definition escrow_layout (peer_push own_push hash_push : bytes) : bytes :=
  [OP_IF; OP_2DUP; OP_HASH160] ++ peer_push
  ++ [OP_EQUALVERIFY; OP_HASH160] ++ own_push
  ++ [OP_EQUALVERIFY; OP_2; OP_CHECKMULTISIG;
      OP_ELSE; OP_DUP; OP_HASH160] ++ peer_push
  ++ [OP_EQUALVERIFY; OP_CHECKSIGVERIFY; OP_HASH256] ++ hash_push
  ++ [OP_EQUAL; OP_ENDIF].

(** [build_tx1] up to the transaction it hands to the wallet for
    signing (lines 113-126): coin selection for quantity plus fee, the
    escrow output, the change output when the inputs exceed quantity
    plus fee, and the unsigned transaction. *)
Definition build_tx1_unsigned (proxy : Proxy) (quantity : Z)
    (own_address peer_address : Address) (secret_hash : bytes)
    (fee_rate : FeeRate) : result CTransaction :=
  let quantity_inc_fee := quantity + get_fee fee_rate 2000 in
  do '(txins, total_in) <- find_inputs proxy quantity_inc_fee;
  do script <- build_tx1_cscript own_address peer_address secret_hash;
  let txout := mkTxOut quantity script in
  let txouts := [txout] in
  do txouts <-
    (if total_in >? quantity_inc_fee then
       let change := total_in - quantity_inc_fee in
       do change_address <- getrawchangeaddress proxy;
       let change_txout :=
         mkTxOut change (to_scriptPubKey change_address) in
       ok (txouts ++ [change_txout])
     else ok txouts);
  CMutableTransaction txins txouts 0 1.

(** [build_tx1(proxy, quantity, own_address, peer_address, secret_hash,
    fee_rate)]: the unsigned transaction goes to the wallet, and what
    the wallet sends back is returned (lines 127-133). *)
Definition build_tx1 (proxy : Proxy) (quantity : Z)
    (own_address peer_address : Address) (secret_hash : bytes)
    (fee_rate : FeeRate) : result CTransaction :=
  do tx <- build_tx1_unsigned proxy quantity own_address peer_address
             secret_hash fee_rate;
  do tx_signed <- signrawtransaction proxy tx;
  if negb (complete tx_signed) then
    raise TradeError "Transaction came back without all inputs signed."
  else ok (Core.tx tx_signed).

(** [txin.scriptSig = script] on the input that [tx] holds: [tx.vin] is
    the list [[txin]] itself, so the assignment shows in [tx]. *)
Definition set_scriptSig (tx : CTransaction) (script : CScript)
  : CTransaction :=
  mkTx (map (fun txin => mkTxIn (prevout txin) script (nSequence txin))
          (vin tx))
       (vout tx) (nLockTime tx) (nVersion tx).

(** [build_tx2(proxy, tx1, nLockTime, own_address, fee_rate)] *)
Definition build_tx2 (proxy : Proxy) (tx1 : CTransaction) (nLockTime : Z)
    (own_address : Address) (fee_rate : FeeRate) : result CTransaction :=
  let prev_txid := GetHash tx1 in
  do prev_out <- index (vout tx1) 0;
  let txin := CMutableTxIn (mkOutPoint prev_txid 0) 1 in
  do seckey <- dumpprivkey proxy own_address;
  let txin_scriptPubKey := scriptPubKey prev_out in
  let fee := get_fee fee_rate 1000 in
  let txouts :=
    [mkTxOut (nValue prev_out - fee) (to_scriptPubKey own_address)] in
  do tx <- CMutableTransaction [txin] txouts nLockTime 1;
  let sighash := SignatureHash txin_scriptPubKey tx 0 SIGHASH_ALL in
  let sig := key_sign seckey sighash ++ py_bytes [SIGHASH_ALL] in
  do script <- CScript_new bn2vch [IBytes sig; IBytes (key_pub seckey)];
  ok (set_scriptSig tx script).

(** [build_tx3] and [build_tx4] *)
Definition build_tx3 (proxy : Proxy) (quantity : Z)
    (own_address peer_address : Address) (secret_hash : bytes)
    (fee_rate : FeeRate) : result CTransaction :=
  build_tx1 proxy quantity peer_address own_address secret_hash fee_rate.

Definition build_tx4 (proxy : Proxy) (tx3 : CTransaction) (nLockTime : Z)
    (own_address : Address) (fee_rate : FeeRate) : result CTransaction :=
  build_tx2 proxy tx3 nLockTime own_address fee_rate.

(** What a global name of the module can be bound to, as far as
    [build_tx3_spend] is concerned. *)
Inductive global : Type :=
| GFunction
| GModule
| GFeeRate (fee_rate : FeeRate)
| GKey (seckey : CKey).

(** Reading a name that is not a local variable: the module's globals
    are searched, and a name bound nowhere raises [NameError]. *)
Definition load_global (globals : gmap string global) (name : string)
  : result global :=
  match globals !! name with
  | Some v => ok v
  | None =>
      raise NameError ("global name '" +:+ name +:+ "' is not defined")
  end.

Definition as_fee_rate (v : global) : result FeeRate :=
  match v with
  | GFeeRate f => ok f
  | _ => raise AttributeError "object has no attribute 'get_fee'"
  end.

Definition as_key (v : global) : result CKey :=
  match v with
  | GKey k => ok k
  | _ => raise AttributeError "object has no attribute 'sign'"
  end.

(** [build_tx3_spend(proxy, tx1, secret, own_address)].  [fee_rate]
    and [seckey] are neither parameters nor local variables of the
    function: they are read from the module's globals. *)
Definition build_tx3_spend (globals : gmap string global)
    (proxy : Proxy) (tx1 : CTransaction) (secret : bytes)
    (own_address : Address) : result CTransaction :=
  do fee_rate <- rbind (load_global globals "fee_rate") as_fee_rate;
  let fee := get_fee fee_rate 1000 in
  let prev_txid := GetHash tx1 in
  do prev_out <- index (vout tx1) 0;
  let txin := CMutableTxIn (mkOutPoint prev_txid 0) 1 in
  let txins := [txin] in
  let txin_scriptPubKey := scriptPubKey prev_out in
  let txouts :=
    [mkTxOut (nValue prev_out - fee) (to_scriptPubKey own_address)] in
  do tx <- CMutableTransaction txins txouts 0 1;
  let sighash := SignatureHash txin_scriptPubKey tx 0 SIGHASH_ALL in
  do seckey <- rbind (load_global globals "seckey") as_key;
  let sig := key_sign seckey sighash ++ py_bytes [SIGHASH_ALL] in
  do script <- CScript_new bn2vch
                 [IBytes secret; IBytes sig; IBytes (key_pub seckey);
                  IInt 0];
  ok (set_scriptSig tx script).

(** The [for] loop of [sign_tx2] over the elements that [raw_iter]
    yields; [end_exn] is the exception the generator raises once the
    elements are used up, if any.  [None] is Python's [None]: it is
    both the initial value of the two variables and the data of an
    element that pushes nothing. *)
Fixpoint sign_tx2_loop (items : list raw_item) (end_exn : option exn)
    (other_sig other_pubkey : option bytes)
  : result (option bytes * option bytes) :=
  match items with
  | [] =>
      match end_exn with
      | Some e => inl e
      | None => ok (other_sig, other_pubkey)
      end
  | (opcode, data, sop_idx) :: rest =>
      match other_sig, other_pubkey with
      | None, _ => sign_tx2_loop rest end_exn data other_pubkey
      | Some _, None => sign_tx2_loop rest end_exn other_sig data
      | Some _, Some _ =>
          raise TradeError
            "TX2 input has more than two elements, expected exactly two."
      end
  end.

(** [not x] for [x] a byte string or [None]. *)
Definition py_not (x : option bytes) : bool :=
  match x with
  | None | Some [] => true
  | Some (_ :: _) => false
  end.

(** The byte string behind a variable that passed the [not] test. *)
Definition the_bytes (x : option bytes) : bytes := default [] x.

(** [sign_tx2(proxy, tx2, own_address, peer_address, secret_hash)];
    [tx2] is a reference to the caller's transaction object. *)
Definition sign_tx2 (proxy : Proxy) (tx2 : Store.loc)
    (own_address peer_address : Address) (secret_hash : bytes)
  : Store.Heap Store.loc :=
  hdo '(vin2, _, _, _) <- Store.load_tx tx2;
  if negb (length vin2 =? 1)%nat then
    Store.hraise TradeError "TX2 does not have exactly one input"
  else
    hdo txin0 <- Store.hbind (Store.hlift (index vin2 0)) Store.load_txin;
    let '(items, end_exn) := raw_iter (scriptSig txin0) in
    hdo '(other_sig, other_pubkey) <-
      Store.hlift (sign_tx2_loop items end_exn None None);
    if py_not other_sig || py_not other_pubkey then
      Store.hraise TradeError
        "TX2 input has less than two elements, expected exactly two."
    else
      hdo seckey <- Store.hlift (dumpprivkey proxy own_address);
      hdo txin_scriptPubKey <-
        Store.hlift (build_tx1_cscript peer_address own_address
                       secret_hash);
      hdo tx2_read <- Store.snapshot tx2;
      let sighash :=
        SignatureHash txin_scriptPubKey tx2_read 0 SIGHASH_ALL in
      let sig := key_sign seckey sighash ++ py_bytes [SIGHASH_ALL] in
      hdo tx2 <- Store.from_tx tx2;
      hdo script <-
        Store.hlift
          (CScript_new bn2vch
             [IInt 0; IBytes sig; IBytes (the_bytes other_sig);
              IBytes (key_pub seckey); IBytes (the_bytes other_pubkey);
              IInt 2]);
      hdo '(vin2', _, _, _) <- Store.load_tx tx2;
      hdo txin0' <- Store.hlift (index vin2' 0);
      hdo _ <- Store.store_scriptSig txin0' script;
      Store.hret tx2.

End Functions.

(** The names that [tx.py] binds at module level: its imports and its
    functions.  Of the names that the two star imports bring in from
    [bitcoin.core] and [bitcoin.core.script], those the module uses are
    listed; the others are classes, functions and constants of the
    library, none of them called [fee_rate] or [seckey]. *)
Definition module_globals : gmap string global :=
  list_to_map
    [ ("praw", GModule); ("decode", GFunction); ("calendar", GModule);
      ("datetime", GModule); ("Decimal", GFunction); ("hashlib", GModule);
      ("os", GModule); ("StringIO", GFunction); ("yaml", GModule);
      ("sys", GModule); ("error", GModule);
      ("b2x", GFunction); ("COutPoint", GFunction);
      ("CMutableTxIn", GFunction); ("CTxOut", GFunction);
      ("CMutableTransaction", GFunction); ("CScript", GFunction);
      ("SignatureHash", GFunction); ("SIGHASH_ALL", GFunction);
      ("assert_tx2_valid", GFunction); ("find_inputs", GFunction);
      ("build_tx1_cscript", GFunction); ("build_tx1", GFunction);
      ("build_tx2", GFunction); ("build_tx3", GFunction);
      ("build_tx4", GFunction); ("build_tx3_spend", GFunction);
      ("sign_tx2", GFunction) ].

End Tx.

(** ** Test doubles *)

(** A toy library and wallet on which the functions can be run: the
    signature hash of a script is the script itself and a signature is the
    hash it signs, so the script that was signed can be read off the
    signature. *)
Module Fixtures.
Import Script Core Store Tx.

Definition lib : BitcoinLib := {|
  bn2vch := fun _ => [];
  b2x := fun b => b;
  py_bytes := map bchr;
  SignatureHash := fun script _ _ _ => script;
  GetHash := fun _ => repeat x00 32;
  to_scriptPubKey := fun a =>
    [OP_DUP; OP_HASH160; bchr (blen a)] ++ a ++ [OP_EQUALVERIFY; OP_CHECKSIG];
  key_sign := fun _ sighash => sighash;
  key_pub := fun seckey => seckey;
  strftime_utc := fun _ => "1970-01-01 00:00:00"%string
|}.

Definition alice : Address := repeat x0a 20.
Definition bob : Address := repeat x0b 20.
Definition secret_hash : bytes := repeat x5e 32.

Definition utxo (tag : byte) (value : Z) : UnspentOutput :=
  mkUnspent (mkOutPoint (repeat tag 32) 0) value.

(** A wallet that holds the given unspent outputs and signs everything. *)
Definition wallet (unspent : list UnspentOutput) : Proxy := {|
  listunspent := fun _ => ok unspent;
  getrawchangeaddress := ok (repeat x0c 20);
  signrawtransaction := fun tx => ok (mkSigned tx true);
  dumpprivkey := fun _ => ok [x5e; xc1]
|}.

Definition wallet_30_50_20 : Proxy :=
  wallet [utxo x01 30; utxo x02 50; utxo x03 20].

Definition wallet_150000 : Proxy := wallet [utxo x01 150000].

Definition flat_fee (fee : Z) : FeeRate := {| get_fee := fun _ => fee |}.

Definition noon : datetime := mkDatetime 1500000000 250000.

(** A refund transaction with the given lock time, inputs and outputs. *)
Definition a_txin (nSequence : Z) : CTxIn :=
  mkTxIn (mkOutPoint (repeat x00 32) 0) [] nSequence.

Definition a_txout : CTxOut := mkTxOut 99000 [OP_DUP].

Definition refund (nLockTime : Z) (vin : list CTxIn) (vout : list CTxOut)
  : CTransaction :=
  mkTx vin vout nLockTime 1.

(** A funding transaction whose first output is not locked by an escrow
    script. *)
Definition plain_tx1 : CTransaction :=
  mkTx [a_txin 0xffffffff] [mkTxOut 100000 [OP_DUP; OP_CHECKSIG]] 0 1.

(** A store with one refund transaction at location 1; its only input,
    at location 2, carries the given unlocking script. *)
Definition store_with (script : CScript) : gmap loc obj :=
  {[ 1%positive := OTx [2%positive] [a_txout] 1500086400 1;
     2%positive := OTxIn (mkTxIn (mkOutPoint (repeat x00 32) 0) script 1) ]}.

(** Three elements: the opcode [OP_1], then a one-byte signature and a
    one-byte public key. *)
Definition three_elements : CScript := [OP_1; x01; xaa; x01; xbb].

(** Two elements, as [build_tx2] leaves them. *)
Definition two_elements : CScript := [x01; xaa; x01; xbb].

End Fixtures.

(** ** Measures and further test doubles *)

Module Derived.
Import Script Core Store Tx.

(** The total value of a list of outputs. *)
Definition sum_values (txouts : list CTxOut) : Z :=
  foldr (fun txout acc => nValue txout + acc) 0 txouts.

(** A wallet like [proxy] whose [getrawchangeaddress] answers [r]. *)
Definition with_change_address (proxy : Proxy) (r : result Address) : Proxy :=
  {| listunspent := listunspent proxy;
     getrawchangeaddress := r;
     signrawtransaction := signrawtransaction proxy;
     dumpprivkey := dumpprivkey proxy |}.


End Derived.

(** ** Proof automation *)

(** Closes the case where the function has raised: [E] equates the
    exception and the store it left with the outcome. *)
Ltac raised E := injection E as <- <-; split; [done | intros ? [=]].

(** * Properties *)

(** ** Bytes and the PUSHDATA encoding *)

Module ScriptFacts.
Import Script.

(** [bord] and [bchr] are inverse on 0..255. *)
Lemma bord_range (b : byte) : 0 <= bord b < 256.
Proof.
  unfold bord. pose proof (Byte.to_N_bounded b). lia.
Qed.

Lemma bord_bchr (k : Z) : 0 <= k < 256 -> bord (bchr k) = k.
Proof.
  intros Hk. unfold bord, bchr.
  rewrite Z.mod_small by lia.
  destruct (Byte.of_N (Z.to_N k)) as [b|] eqn:E.
  - apply Byte.to_of_N in E. lia.
  - apply Byte.of_N_None_iff in E. lia.
Qed.

Lemma bchr_inj (j k : Z) :
  0 <= j < 256 -> 0 <= k < 256 -> bchr j = bchr k -> j = k.
Proof.
  intros Hj Hk E. apply (f_equal bord) in E.
  now rewrite !bord_bchr in E.
Qed.

(** A length field is read back as it was written. *)
Lemma unpack_pack_le16 (k : Z) :
  0 <= k <= 0xffff -> unpack_le (pack_le16 k) = k.
Proof.
  intros Hk. unfold unpack_le, pack_le16. cbn [fold_right].
  rewrite !bord_bchr by (apply Z.mod_pos_bound; lia).
  Z.div_mod_to_equations. lia.
Qed.

Lemma unpack_pack_le32 (k : Z) :
  0 <= k <= 0xffffffff -> unpack_le (pack_le32 k) = k.
Proof.
  intros Hk. unfold unpack_le, pack_le32. cbn [fold_right].
  rewrite !bord_bchr by (apply Z.mod_pos_bound; lia).
  Z.div_mod_to_equations. lia.
Qed.

(** [encode_op_pushdata] returns exactly on pushable data. *)
Lemma encode_op_pushdata_ok (d : bytes) :
  pushable d -> exists b, encode_op_pushdata d = ok b.
Proof.
  unfold pushable, encode_op_pushdata. intros Hd.
  repeat case_match; eauto; lia.
Qed.

Lemma encode_op_pushdata_pushable (d b : bytes) :
  encode_op_pushdata d = ok b -> pushable d.
Proof.
  unfold pushable, encode_op_pushdata.
  repeat case_match; try discriminate; lia.
Qed.

Lemma Z_to_nat_blen (d : bytes) : Z.to_nat (blen d) = length d.
Proof. unfold blen. lia. Qed.

(** The header that [encode_op_pushdata] writes is the one [raw_iter]
    reads back: opcode [op], a length field of [hdr] bytes, the data. *)
Lemma read_datasize_push (d b : bytes) :
  encode_op_pushdata d = ok b ->
  exists op hdr body,
    b = op :: body /\ bord op <= bord OP_PUSHDATA4 /\
    length b = S (hdr + length d) /\
    forall rest,
      read_datasize op (body ++ rest) = ok (hdr, length d) /\
      skipn hdr (body ++ rest) = d ++ rest.
Proof.
  unfold encode_op_pushdata. intros E.
  destruct (blen d <? 76) eqn:E1;
    [|destruct (blen d <=? 255) eqn:E2;
      [|destruct (blen d <=? 65535) eqn:E3;
        [|destruct (blen d <=? 4294967295) eqn:E4; [|discriminate]]]];
    injection E as <-; unfold blen in *.
  - exists (bchr (blen d)), 0%nat, d. unfold blen.
    rewrite bord_bchr by lia.
    split; [done|]. split; [vm_compute (bord _); lia|]. split; [done|].
    intros rest. unfold read_datasize. rewrite bord_bchr by lia.
    change (bord OP_PUSHDATA1) with 76.
    destruct (Z.ltb_spec (Z.of_nat (length d)) 76); [|lia].
    split; [|done]. do 2 f_equal. lia.
  - exists OP_PUSHDATA1, 1%nat, (bchr (blen d) :: d). unfold blen.
    split; [done|]. split; [vm_compute; discriminate|]. split; [done|].
    intros rest. unfold read_datasize. cbn [app].
    change (bord OP_PUSHDATA1) with 76.
    rewrite Z.ltb_irrefl, Z.eqb_refl, bord_bchr by lia.
    split; [|done]. do 2 f_equal. lia.
  - exists OP_PUSHDATA2, 2%nat, (pack_le16 (blen d) ++ d). unfold blen.
    split; [done|]. split; [vm_compute; discriminate|].
    split; [cbn; lia|].
    intros rest. unfold read_datasize.
    change (bord OP_PUSHDATA2 <? bord OP_PUSHDATA1) with false.
    change (bord OP_PUSHDATA2 =? bord OP_PUSHDATA1) with false.
    rewrite Z.eqb_refl. cbn [pack_le16 app length firstn skipn Nat.ltb Nat.leb].
    split; [|done].
    change (take 0 (d ++ rest)) with (@nil byte).
    change [bchr (Z.of_nat (length d) mod 256);
            bchr (Z.of_nat (length d) / 256 mod 256)]
      with (pack_le16 (Z.of_nat (length d))).
    rewrite unpack_pack_le16 by lia. do 2 f_equal. lia.
  - exists OP_PUSHDATA4, 4%nat, (pack_le32 (blen d) ++ d). unfold blen.
    split; [done|]. split; [vm_compute; discriminate|].
    split; [cbn; lia|].
    intros rest. unfold read_datasize.
    change (bord OP_PUSHDATA4 <? bord OP_PUSHDATA1) with false.
    change (bord OP_PUSHDATA4 =? bord OP_PUSHDATA1) with false.
    change (bord OP_PUSHDATA4 =? bord OP_PUSHDATA2) with false.
    cbn [pack_le32 app length firstn skipn Nat.ltb Nat.leb].
    split; [|done].
    change (take 0 (d ++ rest)) with (@nil byte).
    change [bchr (Z.of_nat (length d) mod 256);
            bchr (Z.of_nat (length d) / 256 mod 256);
            bchr (Z.of_nat (length d) / 65536 mod 256);
            bchr (Z.of_nat (length d) / 16777216 mod 256)]
      with (pack_le32 (Z.of_nat (length d))).
    rewrite unpack_pack_le32 by lia. do 2 f_equal. lia.
Qed.

(** Round trip: a pushed byte string is the first element that
    [raw_iter] yields, and the iteration goes on behind it. *)
Lemma raw_iter_from_push (fuel i : nat) (d b rest : bytes) :
  encode_op_pushdata d = ok b ->
  exists op,
    raw_iter_from (S fuel) i (b ++ rest) =
      ((op, Some d, i) :: (raw_iter_from fuel (i + length b) rest).1,
       (raw_iter_from fuel (i + length b) rest).2).
Proof.
  intros E.
  destruct (read_datasize_push d b E) as (op & hdr & body & -> & Hop & Hlen & Hrd).
  exists op. specialize (Hrd rest) as [Hrd Hskip].
  cbn [raw_iter_from app].
  destruct (Z.ltb_spec (bord OP_PUSHDATA4) (bord op)); [lia|].
  rewrite Hrd. unfold ok. cbv beta iota. rewrite Hskip.
  rewrite take_app_length, drop_app_length.
  rewrite Nat.ltb_irrefl.
  replace (S i + hdr + length d)%nat with (i + length (op :: body))%nat
    by (rewrite Hlen; lia).
  by destruct (raw_iter_from fuel _ rest).
Qed.

(** More fuel than the script has bytes changes nothing. *)
Lemma raw_iter_from_fuel (f1 : nat) :
  forall (f2 : nat) (s : bytes) (i : nat),
    (length s <= f1)%nat -> (length s <= f2)%nat ->
    raw_iter_from f1 i s = raw_iter_from f2 i s.
Proof.
  induction f1 as [|f1 IH]; intros [|f2] [|op rest] i H1 H2;
    cbn [length] in *; try lia; try done.
  cbn [raw_iter_from].
  destruct (bord OP_PUSHDATA4 <? bord op).
  - by rewrite (IH f2 rest (S i)) by lia.
  - destruct (read_datasize op rest) as [e|[hdr datasize]]; [done|].
    destruct (length (take datasize (drop hdr rest)) <? datasize)%nat;
      [done|].
    rewrite (IH f2 (drop datasize (drop hdr rest))); [done | |];
      rewrite !length_drop; lia.
Qed.

(** With enough fuel: a pushed byte string is yielded with its data, an
    opcode above [OP_PUSHDATA4] is yielded with no data, and the iteration
    goes on behind either. *)
Lemma raw_iter_from_push_enough (fuel i : nat) (d b rest : bytes) :
  encode_op_pushdata d = ok b ->
  (length (b ++ rest) <= fuel)%nat ->
  exists op,
    raw_iter_from fuel i (b ++ rest) =
      ((op, Some d, i) :: (raw_iter_from fuel (i + length b) rest).1,
       (raw_iter_from fuel (i + length b) rest).2).
Proof.
  intros E Hfuel.
  destruct (read_datasize_push d b E) as (op & hdr & body & Hb & _ & Hlen & _).
  rewrite length_app, Hlen in Hfuel.
  destruct fuel as [|fuel]; [lia|].
  destruct (raw_iter_from_push fuel i d b rest E) as [op' ->].
  exists op'.
  by rewrite (raw_iter_from_fuel fuel (S fuel) rest) by lia.
Qed.

Lemma raw_iter_from_op_enough (fuel i : nat) (op : byte) (rest : bytes) :
  bord OP_PUSHDATA4 < bord op ->
  (length (op :: rest) <= fuel)%nat ->
  raw_iter_from fuel i (op :: rest) =
    ((op, None, i) :: (raw_iter_from fuel (S i) rest).1,
     (raw_iter_from fuel (S i) rest).2).
Proof.
  intros Hop Hfuel. destruct fuel as [|fuel]; [cbn in Hfuel; lia|].
  rewrite (raw_iter_from_fuel (S fuel) fuel rest) by (cbn in Hfuel; lia).
  cbn [raw_iter_from].
  destruct (Z.ltb_spec (bord OP_PUSHDATA4) (bord op)); [|lia].
  by destruct (raw_iter_from fuel (S i) rest).
Qed.

Lemma raw_iter_from_nil (fuel i : nat) : raw_iter_from fuel i [] = ([], None).
Proof. by destruct fuel. Qed.

(** Round trip for a whole script: iterating over [CScript(value)] yields
    the elements of [value], in order and nothing else. *)
Lemma raw_iter_from_CScript_new (bn2vch : Z -> bytes) (value : list item) :
  Forall plain_op value ->
  forall (s : CScript) (fuel i : nat),
    CScript_new bn2vch value = ok s ->
    (length s <= fuel)%nat ->
    map (fun it : raw_item => it.1.2) (raw_iter_from fuel i s).1
      = map (pushes bn2vch) value
    /\ (raw_iter_from fuel i s).2 = None.
Proof.
  induction 1 as [|x value Hx _ IH]; intros s fuel i E Hfuel.
  - injection E as <-. by rewrite raw_iter_from_nil.
  - cbn [CScript_new] in E.
    destruct (coerce_instance bn2vch x) as [e|b] eqn:Ex; [done|].
    destruct (CScript_new bn2vch value) as [e|bs] eqn:Ebs; [done|].
    injection E as <-. rewrite length_app in Hfuel.
    assert (forall d, encode_op_pushdata d = ok b ->
              map (fun it : raw_item => it.1.2)
                  (raw_iter_from fuel i (b ++ bs)).1
                = Some d :: map (pushes bn2vch) value
              /\ (raw_iter_from fuel i (b ++ bs)).2 = None) as Hpush.
    { intros d Ed.
      destruct (raw_iter_from_push_enough fuel i d b bs Ed) as [op ->];
        [rewrite length_app; lia|].
      cbn [fst snd map].
      destruct (IH bs fuel (i + length b)%nat eq_refl) as [-> ->]; [lia|].
      done. }
    assert (forall op, b = [op] -> bord OP_PUSHDATA4 < bord op ->
              map (fun it : raw_item => it.1.2)
                  (raw_iter_from fuel i (b ++ bs)).1
                = None :: map (pushes bn2vch) value
              /\ (raw_iter_from fuel i (b ++ bs)).2 = None) as Hop.
    { intros op -> Hop. cbn [app].
      rewrite raw_iter_from_op_enough by (cbn in *; lia).
      cbn [fst snd map].
      destruct (IH bs fuel (S i) eq_refl) as [-> ->]; [cbn in *; lia|].
      done. }
    cbn [map]. destruct x as [op|k|d]; cbn [coerce_instance pushes] in *.
    + injection Ex as <-. exact (Hop op eq_refl Hx).
    + destruct (Z.eqb_spec k 0) as [->|Hk0].
      { injection Ex as <-. by apply Hpush. }
      destruct ((0 <=? k) && (k <=? 16)) eqn:Hsmall.
      { injection Ex as <-. apply (Hop _ eq_refl).
        unfold encode_op_n. destruct (Z.eqb_spec k 0); [done|].
        change (bord OP_1) with 81. change (bord OP_PUSHDATA4) with 78.
        rewrite bord_bchr; lia. }
      destruct (Z.eqb_spec k (-1)).
      { injection Ex as <-. apply (Hop _ eq_refl). vm_compute. done. }
      by apply Hpush.
    + by apply Hpush.
Qed.

Lemma elements_CScript_new (bn2vch : Z -> bytes) (value : list item)
    (s : CScript) :
  Forall plain_op value ->
  CScript_new bn2vch value = ok s ->
  elements s = ok (map (pushes bn2vch) value).
Proof.
  intros Hplain E. unfold elements, raw_iter.
  destruct (raw_iter_from_CScript_new bn2vch value Hplain s (length s) 0 E)
    as [Hdata Hend]; [done|].
  destruct (raw_iter_from (length s) 0 s) as [items e]. cbn in *.
  by rewrite Hend, Hdata.
Qed.

(** A script of two data elements, as the iteration yields it. *)
Lemma elements_two (s : CScript) (a b : bytes) :
  elements s = ok [Some a; Some b] ->
  exists o1 i1 o2 i2,
    raw_iter s = ([(o1, Some a, i1); (o2, Some b, i2)], None).
Proof.
  unfold elements. destruct (raw_iter s) as [items [e|]]; [discriminate|].
  intros [= E].
  destruct items as [|[[o1 d1] i1] [|[[o2 d2] i2] [|]]]; try discriminate E.
  cbn in E. injection E as -> ->. by exists o1, i1, o2, i2.
Qed.

(** The encoding is self-delimiting: what follows a pushed byte string
    cannot be confused with its end. *)
Lemma encode_op_pushdata_prefix_free (d1 d2 b1 b2 r1 r2 : bytes) :
  encode_op_pushdata d1 = ok b1 ->
  encode_op_pushdata d2 = ok b2 ->
  b1 ++ r1 = b2 ++ r2 ->
  d1 = d2 /\ r1 = r2.
Proof.
  intros E1 E2 Happ.
  destruct (raw_iter_from_push 0 0 d1 b1 r1 E1) as [op1 H1].
  destruct (raw_iter_from_push 0 0 d2 b2 r2 E2) as [op2 H2].
  rewrite Happ, H2 in H1.
  assert (d1 = d2) as -> by (destruct r1, r2; cbn in H1; congruence).
  split; [done|].
  rewrite E1 in E2. injection E2 as ->.
  by apply app_inv_head in Happ.
Qed.

End ScriptFacts.

(** ** The object store *)

Module StoreFacts.
Import Script Core Store.

(** Reading an object leaves the store as it is. *)
Lemma load_txin_inv (l : loc) (h h' : gmap loc obj) (r : result CTxIn) :
  load_txin l h = (r, h') ->
  h' = h /\ forall txin, r = ok txin -> h !! l = Some (OTxIn txin).
Proof.
  unfold load_txin. destruct (h !! l) as [[txin|]|]; intros [= <- <-];
    (split; [done|]); intros t [=]; by subst.
Qed.

Lemma load_tx_inv (l : loc) (h h' : gmap loc obj)
    (r : result (list loc * list CTxOut * Z * Z)) :
  load_tx l h = (r, h') ->
  h' = h /\
  forall vin vout lt ver,
    r = ok (vin, vout, lt, ver) -> h !! l = Some (OTx vin vout lt ver).
Proof.
  unfold load_tx. destruct (h !! l) as [[txin|vin vout lt ver]|];
    intros [= <- <-]; (split; [done|]); intros ???? [=]; by subst.
Qed.

(** Allocation only adds the new object, at a location not in use. *)
Lemma alloc_inv (o : obj) (h h' : gmap loc obj) (r : result loc) :
  alloc o h = (r, h') ->
  exists l, r = ok l /\ h !! l = None /\ h' = <[l := o]> h.
Proof.
  unfold alloc. intros [= <- <-]. eexists. split; [done|]. split; [|done].
  apply not_elem_of_dom, is_fresh.
Qed.

(** Copying an input, a list of inputs or a transaction only extends the
    store, and the copies are at locations that were not in use. *)
Lemma from_txin_inv (l : loc) (h h' : gmap loc obj) (r : result loc) :
  from_txin l h = (r, h') ->
  h ⊆ h' /\ forall l', r = ok l' -> h !! l' = None.
Proof.
  unfold from_txin, hbind.
  destruct (load_txin l h) as [[e|txin] h1] eqn:E;
    apply load_txin_inv in E as [-> _].
  - intros [= <- <-]. split; [done|]. intros ? [=].
  - intros (l0 & -> & Hfresh & ->)%alloc_inv.
    split; [by apply insert_subseteq|]. by intros ? [= <-].
Qed.

Lemma hmap_from_txin_inv (vin : list loc) :
  forall (h h' : gmap loc obj) (r : result (list loc)),
    hmap from_txin vin h = (r, h') ->
    h ⊆ h' /\
    forall vin', r = ok vin' ->
      length vin' = length vin /\ Forall (fun l' => h !! l' = None) vin'.
Proof.
  induction vin as [|l vin IH]; intros h h' r; cbn [hmap].
  - intros [= <- <-]. split; [done|]. by intros ? [= <-].
  - unfold hbind at 1.
    destruct (from_txin l h) as [[e|l'] h1] eqn:E;
      apply from_txin_inv in E as [Hsub Hfresh].
    + intros [= <- <-]. split; [done|]. intros ? [=].
    + unfold hbind at 1.
      destruct (hmap from_txin vin h1) as [[e|vin'] h2] eqn:E2;
        apply IH in E2 as [Hsub2 Hfresh2].
      * intros [= <- <-]. split; [by trans h1|]. intros ? [=].
      * unfold hret. intros [= <- <-]. split; [by trans h1|]. intros ? [= <-].
        destruct (Hfresh2 _ eq_refl) as [Hlen Hall].
        split; [cbn; by rewrite Hlen|].
        constructor; [by apply Hfresh|].
        eapply Forall_impl; [exact Hall|]. intros x Hx. cbn in Hx.
        by apply (lookup_weaken_None h h1).
Qed.

Lemma from_tx_inv (l : loc) (h h' : gmap loc obj) (r : result loc) :
  from_tx l h = (r, h') ->
  h ⊆ h' /\
  forall l', r = ok l' ->
    h !! l' = None /\
    exists vin vin' vout lt ver,
      h !! l = Some (OTx vin vout lt ver) /\
      h' !! l' = Some (OTx vin' vout lt ver) /\
      length vin' = length vin /\
      Forall (fun x => h !! x = None) vin'.
Proof.
  unfold from_tx. unfold hbind at 1.
  destruct (load_tx l h) as [[e|[[[vin vout] lt] ver]] h1] eqn:E;
    apply load_tx_inv in E as [-> Hl].
  { intros [= <- <-]. split; [done|]. intros ? [=]. }
  specialize (Hl _ _ _ _ eq_refl).
  unfold hbind at 1.
  destruct (hmap from_txin vin h) as [[e|vin'] h1] eqn:E;
    apply hmap_from_txin_inv in E as [Hsub Hvin].
  { intros [= <- <-]. split; [done|]. intros ? [=]. }
  destruct (Hvin _ eq_refl) as [Hlen Hall].
  unfold hbind, hlift.
  destruct (check_nLockTime lt) as [e|[]].
  { intros [= <- <-]. split; [done|]. intros ? [=]. }
  intros (l0 & -> & Hfresh & ->)%alloc_inv.
  split; [etrans; [exact Hsub|]; by apply insert_subseteq|].
  intros ? [= <-]. split; [eapply lookup_weaken_None; eauto|].
  exists vin, vin', vout, lt, ver. rewrite lookup_insert_eq. done.
Qed.

(** Reading the inputs of a transaction, and the transaction itself. *)
Lemma hmap_load_txin_inv (vin : list loc) (h h' : gmap loc obj)
    (r : result (list CTxIn)) :
  hmap load_txin vin h = (r, h') ->
  h' = h /\
  forall txins, r = ok txins ->
    Forall2 (fun l txin => h !! l = Some (OTxIn txin)) vin txins.
Proof.
  revert r h'. induction vin as [|l vin IH]; intros r h'; cbn [hmap].
  - unfold hret. intros [= <- <-]. split; [done|]. intros ? [= <-]. constructor.
  - unfold hbind at 1.
    destruct (load_txin l h) as [[e|txin] h1] eqn:E;
      apply load_txin_inv in E as [-> Hl].
    { intros [= <- <-]. split; [done|]. intros ? [=]. }
    unfold hbind at 1.
    destruct (hmap load_txin vin h) as [[e|txins] h1] eqn:E2;
      destruct (IH _ _ eq_refl) as [-> Hvin].
    { intros [= <- <-]. split; [done|]. intros ? [=]. }
    unfold hret. intros [= <- <-]. split; [done|]. intros ? [= <-].
    constructor; [by apply Hl | by apply Hvin].
Qed.

Lemma snapshot_inv (l : loc) (h h' : gmap loc obj) (r : result CTransaction) :
  snapshot l h = (r, h') ->
  h' = h /\
  forall v, r = ok v ->
    exists vin,
      h !! l = Some (OTx vin (vout v) (nLockTime v) (nVersion v)) /\
      Forall2 (fun l txin => h !! l = Some (OTxIn txin)) vin (Core.vin v).
Proof.
  unfold snapshot. unfold hbind at 1.
  destruct (load_tx l h) as [[e|[[[vin vout] lt] ver]] h1] eqn:E;
    apply load_tx_inv in E as [-> Hl].
  { intros [= <- <-]. split; [done|]. intros ? [=]. }
  unfold hbind at 1.
  destruct (hmap load_txin vin h) as [[e|txins] h1] eqn:E;
    apply hmap_load_txin_inv in E as [-> Hvin].
  { intros [= <- <-]. split; [done|]. intros ? [=]. }
  unfold hret. intros [= <- <-]. split; [done|]. intros ? [= <-].
  exists vin. cbn. split; [by apply Hl | by apply Hvin].
Qed.

(** Reading a transaction gives the same value in any larger store. *)
Lemma hmap_load_txin_mono (vin : list loc) (txins : list CTxIn)
    (h h' : gmap loc obj) :
  h ⊆ h' ->
  Forall2 (fun l txin => h !! l = Some (OTxIn txin)) vin txins ->
  hmap load_txin vin h' = (ok txins, h').
Proof.
  intros Hsub. induction 1 as [|l txin vin txins Hl _ IH]; [done|].
  cbn [hmap]. unfold hbind, load_txin at 1.
  rewrite (lookup_weaken _ _ _ _ Hl Hsub). unfold ok. cbv beta iota.
  by rewrite IH.
Qed.

Lemma snapshot_mono (l : loc) (h h' : gmap loc obj) (v : CTransaction) :
  h ⊆ h' -> (snapshot l h).1 = ok v -> (snapshot l h').1 = ok v.
Proof.
  intros Hsub Hv.
  destruct (snapshot l h) as [r h1] eqn:E. cbn in Hv. subst r.
  apply snapshot_inv in E as [_ Hs].
  destruct (Hs _ eq_refl) as (vin & Hl & Hvin).
  unfold snapshot, hbind, load_tx.
  rewrite (lookup_weaken _ _ _ _ Hl Hsub). unfold ok. cbv beta iota.
  rewrite (hmap_load_txin_mono _ _ _ _ Hsub Hvin).
  by destruct v.
Qed.

(** The assignment changes the object at [l] and nothing else. *)
Lemma store_scriptSig_inv (l : loc) (script : CScript) (h h' : gmap loc obj)
    (r : result unit) :
  store_scriptSig l script h = (r, h') ->
  (h' = h /\ exists e, r = inl e)
  \/ (exists txin,
        h !! l = Some (OTxIn txin) /\ r = ok tt /\
        h' = <[l := OTxIn (mkTxIn (prevout txin) script (nSequence txin))]> h).
Proof.
  unfold store_scriptSig, hbind.
  destruct (load_txin l h) as [[e|txin] h1] eqn:E;
    apply load_txin_inv in E as [-> Hl].
  - intros [= <- <-]. left. eauto.
  - intros [= <- <-]. right. exists txin. eauto.
Qed.

(** A step that does not touch the store. *)
Lemma hbind_hlift {A B} (r : result A) (k : A -> Heap B) (h : gmap loc obj) :
  hbind (hlift r) k h =
    match r with
    | inl e => (inl e, h)
    | inr a => k a h
    end.
Proof. by destruct r. Qed.

(** Forward evaluation of the reads. *)
Lemma load_tx_eval (l : loc) (h : gmap loc obj) vin vout lt ver :
  h !! l = Some (OTx vin vout lt ver) ->
  load_tx l h = (ok (vin, vout, lt, ver), h).
Proof. unfold load_tx. by intros ->. Qed.

Lemma load_txin_eval (l : loc) (h : gmap loc obj) txin :
  h !! l = Some (OTxIn txin) -> load_txin l h = (ok txin, h).
Proof. unfold load_txin. by intros ->. Qed.

(** Copying a transaction with one input: two new objects, the copy of the
    input and the transaction that holds it. *)
Lemma from_tx_eval (l l0 : loc) (h : gmap loc obj) vout lt ver txin :
  h !! l = Some (OTx [l0] vout lt ver) ->
  h !! l0 = Some (OTxIn txin) ->
  0 <= lt <= 0xffffffff ->
  exists l1 l2,
    from_tx l h =
      (ok l2, <[l2 := OTx [l1] vout lt ver]> (<[l1 := OTxIn txin]> h))
    /\ h !! l1 = None /\ h !! l2 = None /\ l1 <> l2.
Proof.
  intros Hl Hl0 Hlt.
  exists (fresh (dom h)), (fresh (dom (<[fresh (dom h) := OTxIn txin]> h))).
  assert (h !! fresh (dom h) = None) as Hf1
    by apply not_elem_of_dom, is_fresh.
  assert (<[fresh (dom h) := OTxIn txin]> h
            !! fresh (dom (<[fresh (dom h) := OTxIn txin]> h)) = None) as Hf2
    by apply not_elem_of_dom, is_fresh.
  split; [|split; [done|split]].
  - unfold from_tx, hbind at 1. rewrite (load_tx_eval _ _ _ _ _ _ Hl).
    unfold ok at 1. cbn [hmap]. unfold hbind at 1, hbind at 1, from_txin.
    unfold hbind at 1. rewrite (load_txin_eval _ _ _ Hl0). unfold ok at 1.
    unfold alloc at 1, ok at 1. unfold hbind at 1, hret at 1, ok at 1.
    unfold hret at 1, ok at 1. rewrite hbind_hlift.
    unfold check_nLockTime.
    destruct (Z.leb_spec 0 lt); [|lia].
    destruct (Z.leb_spec lt 4294967295); [|lia].
    cbn [andb]. unfold ok at 1. unfold alloc. by destruct txin.
  - apply lookup_insert_None in Hf2. tauto.
  - intros E. rewrite <- E in Hf2. by rewrite lookup_insert_eq in Hf2.
Qed.

End StoreFacts.

(** ** The refund validator *)

Module RefundValidator.
Import Script Core Tx.

(** Two facts on string concatenation. *)
Lemma string_app_inj (s t u v : string) :
  String.length s = String.length t ->
  s +:+ u = t +:+ v -> s = t /\ u = v.
Proof.
  revert t. induction s as [|a s IH]; intros [|b t] Hlen E;
    try discriminate; cbn in *.
  - done.
  - injection E as -> E. injection Hlen as Hlen.
    destruct (IH t Hlen E) as [-> ->]. done.
Qed.

Lemma string_app_length (s u : string) :
  String.length (s +:+ u) = (String.length s + String.length u)%nat.
Proof. induction s as [|a s IH]; simpl; [done | by f_equal]. Qed.

Section Facts.
Context `{BitcoinLib}.

(** The two lock-time messages differ in what follows the quoted time. *)
Lemma msg_lock_min_max_ne (t t' : Z) : msg_lock_min t <> msg_lock_max t'.
Proof.
  unfold msg_lock_min, msg_lock_max. intros E.
  apply string_app_inj in E as [_ E]; [|done].
  assert (String.length (strftime_utc t) = String.length (strftime_utc t'))
    as Hlen.
  { apply (f_equal String.length) in E.
    rewrite !string_app_length in E. cbn in E. lia. }
  apply string_app_inj in E as [_ E]; [discriminate | done].
Qed.

(** The five messages are pairwise different, whatever the lock times
    they quote. *)
Lemma messages_distinct (t t' : Z) :
  NoDup [msg_lock_min t; msg_lock_max t'; msg_inputs; msg_outputs;
         msg_final].
Proof.
  pose proof (msg_lock_min_max_ne t t').
  repeat (apply NoDup_cons; split;
          [rewrite ?elem_of_cons, elem_of_nil; intuition discriminate|]).
  apply NoDup_nil_2.
Qed.

(** C1. [assert_tx2_valid] returns without raising exactly when the lock
    time lies between now + 12 hours and now + 72 hours (both included),
    there is one input and one output, and the input's sequence number
    is not 0xffffffff; [now] is the validation time in whole seconds, as
    [calendar.timegm] gives it.  In particular now + 1 hour and
    now + 100 hours are refused, and now + 24 hours with sequence 1, one
    input and one output passes. *)
Theorem assert_tx2_valid_iff (utcnow : datetime) (tx2 : CTransaction) :
  let now := timegm_timetuple utcnow in
  (assert_tx2_valid utcnow utcnow tx2 = ok tt <->
     now + 12 * 3600 <= nLockTime tx2 <= now + 72 * 3600 /\
     length (vin tx2) = 1%nat /\
     length (vout tx2) = 1%nat /\
     exists txin,
       vin tx2 !! 0%nat = Some txin /\ nSequence txin <> 0xffffffff)
  /\ (forall vin vout nVersion, exists e,
        assert_tx2_valid utcnow utcnow
          (mkTx vin vout (now + 1 * 3600) nVersion) = inl e)
  /\ (forall vin vout nVersion, exists e,
        assert_tx2_valid utcnow utcnow
          (mkTx vin vout (now + 100 * 3600) nVersion) = inl e)
  /\ (forall prevout scriptSig txout nVersion,
        assert_tx2_valid utcnow utcnow
          (mkTx [mkTxIn prevout scriptSig 1] [txout] (now + 24 * 3600)
             nVersion) = ok tt).
Proof.
  cbv zeta. unfold timegm_timetuple.
  split; [|split; [|split]].
  - destruct tx2 as [vin vout lock_time ver].
    unfold assert_tx2_valid, add_hours, timegm_timetuple. cbn.
    destruct (Z.ltb_spec lock_time (epoch_seconds utcnow + 12 * 3600));
      [split; [discriminate | lia]|].
    destruct (Z.gtb_spec lock_time (epoch_seconds utcnow + 72 * 3600));
      [split; [discriminate | lia]|].
    destruct vin as [|txin [|txin' vin]]; cbn;
      [split; [discriminate | intros (_ & ? & _); discriminate] | |
       split; [discriminate | intros (_ & ? & _); discriminate]].
    destruct vout as [|txout [|txout' vout]]; cbn;
      [split; [discriminate | intros (_ & _ & ? & _); discriminate] | |
       split; [discriminate | intros (_ & _ & ? & _); discriminate]].
    destruct (Z.eqb_spec (nSequence txin) 4294967295) as [Hseq|Hseq].
    + split; [discriminate|].
      intros (_ & _ & _ & txin0 & [= <-] & Hne). done.
    + split; [|done]. intros _. repeat split; [lia | lia |]. eauto.
  - intros vin vout ver. unfold assert_tx2_valid, add_hours. cbn.
    destruct (Z.ltb_spec (epoch_seconds utcnow + 1 * 3600)
                (epoch_seconds utcnow + 12 * 3600)); [eauto | lia].
  - intros vin vout ver. unfold assert_tx2_valid, add_hours. cbn.
    destruct (Z.ltb_spec (epoch_seconds utcnow + 100 * 3600)
                (epoch_seconds utcnow + 12 * 3600)); [eauto|].
    destruct (Z.gtb_spec (epoch_seconds utcnow + 100 * 3600)
                (epoch_seconds utcnow + 72 * 3600)); [eauto | lia].
  - intros po ss txout ver. unfold assert_tx2_valid, add_hours. cbn.
    destruct (Z.ltb_spec (epoch_seconds utcnow + 24 * 3600)
                (epoch_seconds utcnow + 12 * 3600)); [lia|].
    destruct (Z.gtb_spec (epoch_seconds utcnow + 24 * 3600)
                (epoch_seconds utcnow + 72 * 3600)); [lia | done].
Qed.

(** C6, as the code has it.  The checks run in the listed order: lock
    time against the lower bound, against the upper bound, number of
    inputs, number of outputs, sequence number of the input; the first
    one violated decides the exception.  Every one of them raises the
    same class, [TradeError], with a message of its own, so the failure
    modes are told apart by message and not by class. *)
Theorem assert_tx2_valid_trade_errors (utcnow_min utcnow_max : datetime)
    (tx2 : CTransaction) :
  let lock_time := nLockTime tx2 in
  let lock_min := timegm_timetuple (add_hours utcnow_min 12) in
  let lock_max := timegm_timetuple (add_hours utcnow_max 72) in
  let r := assert_tx2_valid utcnow_min utcnow_max tx2 in
  (forall e, r = inl e -> exn_kind e = TradeError)
  /\ (lock_time < lock_min ->
      r = raise TradeError (msg_lock_min lock_time))
  /\ (lock_min <= lock_time -> lock_max < lock_time ->
      r = raise TradeError (msg_lock_max lock_time))
  /\ (lock_min <= lock_time <= lock_max ->
      length (vin tx2) <> 1%nat ->
      r = raise TradeError msg_inputs)
  /\ (lock_min <= lock_time <= lock_max ->
      length (vin tx2) = 1%nat -> length (vout tx2) <> 1%nat ->
      r = raise TradeError msg_outputs)
  /\ (lock_min <= lock_time <= lock_max ->
      length (vout tx2) = 1%nat ->
      forall txin, vin tx2 = [txin] -> nSequence txin = 0xffffffff ->
      r = raise TradeError msg_final)
  /\ (forall t t',
        NoDup [msg_lock_min t; msg_lock_max t'; msg_inputs; msg_outputs;
               msg_final]).
Proof.
  cbv zeta. destruct tx2 as [vin vout lock_time ver].
  unfold assert_tx2_valid. cbn [nLockTime Core.vin Core.vout].
  set (lock_min := timegm_timetuple (add_hours utcnow_min 12)).
  set (lock_max := timegm_timetuple (add_hours utcnow_max 72)).
  split; [|split; [|split; [|split; [|split; [|split]]]]].
  - intros e.
    destruct (lock_time <? lock_min); [by intros [= <-]|].
    destruct (lock_time >? lock_max); [by intros [= <-]|].
    destruct (Nat.eqb_spec (length vin) 1) as [Hvin|]; cbn [negb];
      [|by intros [= <-]].
    destruct (negb _); [by intros [= <-]|].
    destruct vin as [|txin vin]; [discriminate Hvin|]. cbn.
    destruct (nSequence txin =? _); [by intros [= <-] | discriminate].
  - intros Hlt. by destruct (Z.ltb_spec lock_time lock_min); [|lia].
  - intros Hge Hgt.
    destruct (Z.ltb_spec lock_time lock_min); [lia|].
    by destruct (Z.gtb_spec lock_time lock_max); [|lia].
  - intros Hwin Hlen.
    destruct (Z.ltb_spec lock_time lock_min); [lia|].
    destruct (Z.gtb_spec lock_time lock_max); [lia|].
    by destruct (Nat.eqb_spec (length vin) 1).
  - intros Hwin Hlen Hout.
    destruct (Z.ltb_spec lock_time lock_min); [lia|].
    destruct (Z.gtb_spec lock_time lock_max); [lia|].
    destruct (Nat.eqb_spec (length vin) 1); [|done].
    by destruct (Nat.eqb_spec (length vout) 1).
  - intros Hwin Hout txin -> Hseq.
    destruct (Z.ltb_spec lock_time lock_min); [lia|].
    destruct (Z.gtb_spec lock_time lock_max); [lia|].
    destruct (Nat.eqb_spec (length vout) 1); [|done]. cbn.
    by destruct (Z.eqb_spec (nSequence txin) 4294967295).
  - apply messages_distinct.
Qed.

End Facts.

(** C6 as stated fails: a lock time one hour ahead, a second input and a
    final sequence number are three different violations, and all three
    raise the same class of exception. *)
Lemma assert_tx2_valid_one_error_class :
  let now := timegm_timetuple Fixtures.noon in
  let validate := assert_tx2_valid (H := Fixtures.lib)
                    Fixtures.noon Fixtures.noon in
  raised_class
    (validate (Fixtures.refund (now + 1 * 3600)
                 [Fixtures.a_txin 1] [Fixtures.a_txout]))
    = Some TradeError
  /\ raised_class
       (validate (Fixtures.refund (now + 24 * 3600)
                    [Fixtures.a_txin 1; Fixtures.a_txin 1]
                    [Fixtures.a_txout]))
     = Some TradeError
  /\ raised_class
       (validate (Fixtures.refund (now + 24 * 3600)
                    [Fixtures.a_txin 0xffffffff] [Fixtures.a_txout]))
     = Some TradeError.
Proof. repeat split. Qed.

End RefundValidator.

(** ** The escrow script *)

Module EscrowScript.
Import Script Core Tx ScriptFacts.

Section Facts.
Context `{BitcoinLib}.

(** The script is the fixed layout around the three pushed strings, and
    it is built exactly when the three can be pushed. *)
Lemma build_tx1_cscript_layout (own peer : Address) (sh : bytes) :
  build_tx1_cscript own peer sh =
    (do peer_push <- encode_op_pushdata peer;
     do own_push <- encode_op_pushdata own;
     do hash_push <- encode_op_pushdata (b2x sh);
     ok (escrow_layout peer_push own_push hash_push)).
Proof.
  unfold build_tx1_cscript, escrow_layout.
  cbn [CScript_new coerce_instance].
  change (encode_op_n 2) with OP_2.
  change ((0 <=? 2) && (2 <=? 16)) with true. cbv iota.
  destruct (encode_op_pushdata peer) as [e|pb]; [done|].
  destruct (encode_op_pushdata own) as [e|ob]; [done|].
  destruct (encode_op_pushdata (b2x sh)) as [e|hb]; [done|].
  cbn. by rewrite <- ?app_assoc.
Qed.

Lemma build_tx1_cscript_inv (own peer : Address) (sh : bytes)
    (script : CScript) :
  build_tx1_cscript own peer sh = ok script ->
  exists peer_push own_push hash_push,
    encode_op_pushdata peer = ok peer_push /\
    encode_op_pushdata own = ok own_push /\
    encode_op_pushdata (b2x sh) = ok hash_push /\
    script = escrow_layout peer_push own_push hash_push.
Proof.
  rewrite build_tx1_cscript_layout.
  destruct (encode_op_pushdata peer) as [e|pb]; [done|].
  destruct (encode_op_pushdata own) as [e|ob]; [done|].
  destruct (encode_op_pushdata (b2x sh)) as [e|hb]; [done|].
  intros [= <-]. by exists pb, ob, hb.
Qed.

Lemma build_tx1_cscript_ok (own peer : Address) (sh : bytes) :
  pushable own -> pushable peer -> pushable (b2x sh) ->
  exists script, build_tx1_cscript own peer sh = ok script.
Proof.
  intros [ob Hob]%encode_op_pushdata_ok [pb Hpb]%encode_op_pushdata_ok
         [hb Hhb]%encode_op_pushdata_ok.
  rewrite build_tx1_cscript_layout, Hpb, Hob, Hhb. cbn. eauto.
Qed.

(** Every escrow script starts with [OP_IF]. *)
Lemma build_tx1_cscript_head (own peer : Address) (sh : bytes)
    (script : CScript) :
  build_tx1_cscript own peer sh = ok script ->
  exists rest, script = OP_IF :: rest.
Proof.
  intros (pb & ob & hb & _ & _ & _ & ->)%build_tx1_cscript_inv.
  unfold escrow_layout. cbn. eauto.
Qed.

(** C9. For distinct addresses A and B and any secret hash, the escrow
    script built with (A, B) and the one built with (B, A) are different
    byte strings: whenever both are built they differ, and both are
    built as soon as the two addresses and the hash text fit a
    PUSHDATA element. *)
Theorem build_tx1_cscript_role_asymmetry (A B : Address) (sh : bytes) :
  A <> B ->
  (forall sAB sBA,
     build_tx1_cscript A B sh = ok sAB ->
     build_tx1_cscript B A sh = ok sBA ->
     sAB <> sBA)
  /\ (pushable A -> pushable B -> pushable (b2x sh) ->
      exists sAB sBA,
        build_tx1_cscript A B sh = ok sAB /\
        build_tx1_cscript B A sh = ok sBA /\
        sAB <> sBA).
Proof.
  intros Hne.
  assert (forall sAB sBA,
             build_tx1_cscript A B sh = ok sAB ->
             build_tx1_cscript B A sh = ok sBA ->
             sAB <> sBA) as Hdiff.
  { intros sAB sBA
      (pb & ob & hb & Hpb & Hob & Hhb & ->)%build_tx1_cscript_inv
      (pb' & ob' & hb' & Hpb' & Hob' & Hhb' & ->)%build_tx1_cscript_inv.
    unfold escrow_layout. cbn [app]. intros [= E].
    destruct (encode_op_pushdata_prefix_free _ _ _ _ _ _ Hpb Hpb' E)
      as [E' _].
    by apply Hne. }
  split; [exact Hdiff|].
  intros HA HB Hsh.
  destruct (build_tx1_cscript_ok A B sh HA HB Hsh) as [sAB HAB].
  destruct (build_tx1_cscript_ok B A sh HB HA Hsh) as [sBA HBA].
  exists sAB, sBA. eauto.
Qed.

End Facts.

Lemma build_tx1_cscript_role_asymmetry_witness :
  exists sAB sBA,
    build_tx1_cscript (H := Fixtures.lib) Fixtures.alice Fixtures.bob
      Fixtures.secret_hash = ok sAB /\
    build_tx1_cscript (H := Fixtures.lib) Fixtures.bob Fixtures.alice
      Fixtures.secret_hash = ok sBA /\
    sAB <> sBA.
Proof.
  apply (build_tx1_cscript_role_asymmetry (H := Fixtures.lib)
           Fixtures.alice Fixtures.bob Fixtures.secret_hash).
  - discriminate.
  - unfold pushable. vm_compute. discriminate.
  - unfold pushable. vm_compute. discriminate.
  - unfold pushable. vm_compute. discriminate.
Defined.

End EscrowScript.

(** ** The coin selector *)

Module CoinSelector.
Import Script Core Tx.

(** What the loop of [find_inputs] does from any point on: either it
    stops after [k >= 1] further outputs, the first [k] for which the
    running total reaches the target, or it runs through all of them and
    the running total never reaches the target. *)
Lemma find_inputs_loop_spec (rest : list UnspentOutput) (quantity : Z) :
  forall (total_in : Z) (txins : list CTxIn),
    (exists k,
        (0 < k <= length rest)%nat /\
        find_inputs_loop rest quantity total_in txins =
          (txins ++ map txin_of (take k rest),
           total_in + sum_amounts (take k rest)) /\
        quantity <= total_in + sum_amounts (take k rest) /\
        forall j, (0 < j < k)%nat ->
                  total_in + sum_amounts (take j rest) < quantity)
    \/ (find_inputs_loop rest quantity total_in txins =
          (txins ++ map txin_of rest, total_in + sum_amounts rest) /\
        forall j, (0 < j <= length rest)%nat ->
                  total_in + sum_amounts (take j rest) < quantity).
Proof.
  induction rest as [|txout rest IH]; intros total_in txins.
  - right. cbn. rewrite app_nil_r, Z.add_0_r. split; [done | lia].
  - cbn [find_inputs_loop].
    destruct (Z.geb_spec (total_in + amount txout) quantity) as [Hge|Hlt].
    + left. exists 1%nat. cbn. rewrite Z.add_0_r.
      repeat split; [lia | lia | lia | lia].
    + destruct (IH (total_in + amount txout)
                  (txins ++ [CMutableTxIn (outpoint txout) 4294967295]))
        as [(k & Hk & Heq & Hcov & Hmin) | [Heq Hall]].
      * left. exists (S k). cbn [take map sum_amounts foldr length].
        rewrite Heq, <- app_assoc.
        repeat split; [lia | lia | | unfold sum_amounts in *; lia |].
        { f_equal. unfold sum_amounts. lia. }
        intros [|j] Hj; [lia|]. cbn [take sum_amounts foldr].
        destruct j as [|j].
        -- rewrite take_0. cbn. lia.
        -- specialize (Hmin (S j)). unfold sum_amounts in *.
           rewrite Z.add_assoc. apply Hmin. lia.
      * right. cbn [map sum_amounts foldr length].
        rewrite Heq, <- app_assoc.
        split; [f_equal; unfold sum_amounts; lia|].
        intros [|j] Hj; [lia|]. cbn [take sum_amounts foldr].
        destruct j as [|j].
        -- rewrite take_0. cbn. lia.
        -- specialize (Hall (S j)). unfold sum_amounts in *.
           rewrite Z.add_assoc. apply Hall. cbn in Hj. lia.
Qed.

(** C3. [find_inputs] takes the unspent outputs in the order the wallet
    lists them and stops at the first one with which the running total
    reaches the target: it returns the inputs made of that prefix and the
    prefix's total.  When the list runs out with the total below the
    target, it raises [FundsError] (the insufficient-funds error).  For
    amounts 30, 50, 20 and target 40 the first two are selected, total
    80; for target 1000 the error is raised. *)
Theorem find_inputs_greedy (proxy : Proxy) (quantity : Z)
    (unspent : list UnspentOutput) :
  listunspent proxy 0 = ok unspent ->
  ((exists k,
       (k <= length unspent)%nat /\
       find_inputs proxy quantity =
         ok (map txin_of (take k unspent), sum_amounts (take k unspent)) /\
       quantity <= sum_amounts (take k unspent) /\
       (forall j, (0 < j < k)%nat ->
                  sum_amounts (take j unspent) < quantity) /\
       (k = 0%nat -> unspent = []))
   \/ (find_inputs proxy quantity = raise FundsError "Insufficient funds." /\
       sum_amounts unspent < quantity /\
       forall j, (0 < j <= length unspent)%nat ->
                 sum_amounts (take j unspent) < quantity))
  /\ (map amount unspent = [30; 50; 20] ->
      find_inputs proxy 40 = ok (map txin_of (take 2 unspent), 80) /\
      find_inputs proxy 1000 = raise FundsError "Insufficient funds.").
Proof.
  intros Hlist. split.
  - unfold find_inputs. rewrite Hlist. cbn [rbind ok].
    destruct (find_inputs_loop_spec unspent quantity 0 [])
      as [(k & Hk & Heq & Hcov & Hmin) | [Heq Hall]];
      rewrite Heq; cbn [app]; rewrite !Z.add_0_l in *.
    + left. exists k.
      destruct (Z.ltb_spec (sum_amounts (take k unspent)) quantity);
        [lia|].
      repeat split; [lia | done | | lia].
      intros j Hj. specialize (Hmin j Hj). lia.
    + destruct unspent as [|txout unspent].
      * cbn. destruct (Z.ltb_spec 0 quantity).
        -- right. repeat split; [done|]. cbn. lia.
        -- left. exists 0%nat. cbn. repeat split; [done | lia | lia].
      * right.
        assert (sum_amounts (txout :: unspent) < quantity) as Hsum.
        { specialize (Hall (length (txout :: unspent))).
          rewrite firstn_all in Hall. cbn [length] in Hall. lia. }
        destruct (Z.ltb_spec (sum_amounts (txout :: unspent)) quantity);
          [|lia].
        repeat split; [done|].
        intros j Hj. specialize (Hall j Hj). lia.
  - intros Hamounts. unfold find_inputs. rewrite Hlist. cbn [rbind ok].
    destruct unspent as [|u1 [|u2 [|u3 [|u4 unspent]]]];
      try discriminate Hamounts.
    injection Hamounts as H1 H2 H3.
    cbn. rewrite H1, H2, H3. cbn. done.
Qed.

Lemma find_inputs_greedy_witness :
  find_inputs Fixtures.wallet_30_50_20 40
    = ok ([txin_of (Fixtures.utxo x01 30); txin_of (Fixtures.utxo x02 50)],
          80)
  /\ find_inputs Fixtures.wallet_30_50_20 1000
    = raise FundsError "Insufficient funds.".
Proof.
  exact (proj2 (find_inputs_greedy Fixtures.wallet_30_50_20 40 _ eq_refl)
           eq_refl).
Defined.

End CoinSelector.

(** ** The funding transaction (TX1 / TX3) *)

Module FundingBuilder.
Import Script Core Tx.

Section Facts.
Context `{BitcoinLib}.

(** C5. Once coin selection has returned [txins] worth [total_in] for
    quantity plus fee, the transaction that [build_tx1] constructs has
    the escrow output, paying [quantity] to the escrow script, as its
    first output; a change output paying
    [total_in - (quantity + fee)] follows exactly when [total_in]
    exceeds quantity plus fee, and there is no other output.  What
    [build_tx1] returns is the wallet's signed version of this
    transaction. *)
Theorem build_tx1_outputs (proxy : Proxy) (quantity : Z)
    (own peer : Address) (sh : bytes) (fee_rate : FeeRate)
    (txins : list CTxIn) (total_in : Z) (script : CScript) :
  let fee := get_fee fee_rate 2000 in
  let escrow := mkTxOut quantity script in
  let unsigned := build_tx1_unsigned proxy quantity own peer sh fee_rate in
  find_inputs proxy (quantity + fee) = ok (txins, total_in) ->
  build_tx1_cscript own peer sh = ok script ->
  (total_in <= quantity + fee ->
     unsigned = ok (mkTx txins [escrow] 0 1))
  /\ (quantity + fee < total_in ->
      forall change_address,
        getrawchangeaddress proxy = ok change_address ->
        unsigned =
          ok (mkTx txins
                [escrow;
                 mkTxOut (total_in - (quantity + fee))
                   (to_scriptPubKey change_address)] 0 1))
  /\ (forall tx,
        unsigned = ok tx ->
        vin tx = txins /\
        ((total_in <= quantity + fee /\ vout tx = [escrow])
         \/ (quantity + fee < total_in /\
             exists change_address,
               getrawchangeaddress proxy = ok change_address /\
               vout tx =
                 [escrow;
                  mkTxOut (total_in - (quantity + fee))
                    (to_scriptPubKey change_address)])))
  /\ (forall signed,
        build_tx1 proxy quantity own peer sh fee_rate = ok signed <->
        exists tx,
          unsigned = ok tx /\
          signrawtransaction proxy tx = ok (mkSigned signed true)).
Proof.
  cbv zeta. intros Hfind Hscript.
  unfold build_tx1, build_tx1_unsigned.
  rewrite Hfind, Hscript. cbn [rbind ok].
  destruct (Z.gtb_spec total_in (quantity + get_fee fee_rate 2000))
    as [Hgt|Hle].
  - split; [lia|]. split; [|split].
    + intros _ ca ->. done.
    + destruct (getrawchangeaddress proxy) as [e|ca]; [done|].
      cbn. intros tx [= <-]. split; [done|]. right. eauto.
    + intros signed.
      destruct (getrawchangeaddress proxy) as [e|ca]; cbn.
      { split; [done | by intros (tx & ? & _)]. }
      destruct (signrawtransaction proxy _) as [e|[stx [|]]] eqn:Hs;
        cbn.
      * split; [done|]. intros (tx & [= <-] & Hs'). unfold ok in *. congruence.
      * split.
        -- intros [= <-]. eauto.
        -- intros (tx & [= <-] & Hs'). unfold ok in *. congruence.
      * split; [done|]. intros (tx & [= <-] & Hs'). unfold ok in *. congruence.
  - split; [|split; [lia|split]].
    + done.
    + cbn. intros tx [= <-]. split; [done|]. left. done.
    + intros signed. cbn.
      destruct (signrawtransaction proxy _) as [e|[stx [|]]] eqn:Hs;
        cbn.
      * split; [done|]. intros (tx & [= <-] & Hs'). unfold ok in *. congruence.
      * split.
        -- intros [= <-]. eauto.
        -- intros (tx & [= <-] & Hs'). unfold ok in *. congruence.
      * split; [done|]. intros (tx & [= <-] & Hs'). unfold ok in *. congruence.
Qed.

(** C8. [build_tx3] is [build_tx1] with the own and the peer address
    swapped, and [build_tx4] is [build_tx2] on the same arguments. *)
Theorem build_tx3_tx4_delegate (proxy : Proxy) (quantity : Z)
    (own peer : Address) (sh : bytes) (fee_rate : FeeRate)
    (tx3 : CTransaction) (nLockTime : Z) :
  build_tx3 proxy quantity own peer sh fee_rate
    = build_tx1 proxy quantity peer own sh fee_rate
  /\ build_tx4 proxy tx3 nLockTime own fee_rate
    = build_tx2 proxy tx3 nLockTime own fee_rate.
Proof. split; reflexivity. Qed.

End Facts.

(** Quantity 100000, fee 1000 and one unspent output of 150000: an
    escrow output of 100000 and a change output of 49000. *)
Lemma build_tx1_outputs_witness :
  exists script change_script,
    build_tx1_cscript (H := Fixtures.lib) Fixtures.alice Fixtures.bob
      Fixtures.secret_hash = ok script /\
    build_tx1_unsigned (H := Fixtures.lib) Fixtures.wallet_150000 100000
      Fixtures.alice Fixtures.bob Fixtures.secret_hash
      (Fixtures.flat_fee 1000)
    = ok (mkTx [txin_of (Fixtures.utxo x01 150000)]
            [mkTxOut 100000 script; mkTxOut 49000 change_script] 0 1).
Proof.
  eexists _, _. split; [reflexivity|].
  refine (proj1 (proj2 (build_tx1_outputs (H := Fixtures.lib)
            Fixtures.wallet_150000 100000 Fixtures.alice Fixtures.bob
            Fixtures.secret_hash (Fixtures.flat_fee 1000)
            _ 150000 _ eq_refl eq_refl)) _ _ eq_refl).
  cbn. lia.
Defined.

End FundingBuilder.

(** ** The refund transaction (TX2 / TX4) *)

Module RefundBuilder.
Import Script Core Tx ScriptFacts.

Section Facts.
Context `{BitcoinLib}.

(** C2, as the code has it.  [build_tx2] signs the refund transaction
    against the output script that the funding transaction records at
    index 0 ([tx1.vout[0].scriptPubKey]); it has neither the peer address
    nor the secret hash and rebuilds nothing.  The refund has one input,
    spending output 0 of [tx1] with sequence number 1, and one output; its
    unlocking script has exactly two elements, this party's signature and
    public key. *)
Theorem build_tx2_signs_recorded_script (proxy : Proxy) (tx1 : CTransaction)
    (nLockTime : Z) (own : Address) (fee_rate : FeeRate) (prev_out : CTxOut)
    (seckey : CKey) :
  let txouts :=
    [mkTxOut (nValue prev_out - get_fee fee_rate 1000) (to_scriptPubKey own)] in
  let unsigned :=
    mkTx [mkTxIn (mkOutPoint (GetHash tx1) 0) [] 1] txouts nLockTime 1 in
  let sighash := SignatureHash (scriptPubKey prev_out) unsigned 0 SIGHASH_ALL in
  let sig := key_sign seckey sighash ++ py_bytes [SIGHASH_ALL] in
  vout tx1 !! 0%nat = Some prev_out ->
  dumpprivkey proxy own = ok seckey ->
  0 <= nLockTime <= 0xffffffff ->
  pushable sig -> pushable (key_pub seckey) ->
  exists script,
    build_tx2 proxy tx1 nLockTime own fee_rate
      = ok (mkTx [mkTxIn (mkOutPoint (GetHash tx1) 0) script 1] txouts
              nLockTime 1)
    /\ elements script = ok [Some sig; Some (key_pub seckey)].
Proof.
  cbv zeta. intros Hout Hkey Hlock Hsig Hpub.
  destruct (encode_op_pushdata_ok _ Hsig) as [sig_push Esig].
  destruct (encode_op_pushdata_ok _ Hpub) as [pub_push Epub].
  exists (sig_push ++ pub_push ++ []).
  assert (CScript_new bn2vch
            [IBytes
               (key_sign seckey
                  (SignatureHash (scriptPubKey prev_out)
                     (mkTx [mkTxIn (mkOutPoint (GetHash tx1) 0) [] 1]
                        [mkTxOut (nValue prev_out - get_fee fee_rate 1000)
                           (to_scriptPubKey own)] nLockTime 1)
                     0 SIGHASH_ALL) ++ py_bytes [SIGHASH_ALL]);
             IBytes (key_pub seckey)]
          = ok (sig_push ++ pub_push ++ [])) as Escript.
  { cbn [CScript_new coerce_instance]. by rewrite Esig, Epub. }
  split.
  - unfold build_tx2, index. rewrite Hout, Hkey. cbn [rbind ok].
    unfold CMutableTransaction, check_nLockTime.
    destruct (Z.leb_spec 0 nLockTime); [|lia].
    destruct (Z.leb_spec nLockTime 4294967295); [|lia].
    cbn [andb rbind ok]. unfold CMutableTxIn.
    by rewrite Escript.
  - apply (elements_CScript_new bn2vch [IBytes _; IBytes _]);
      [repeat constructor | exact Escript].
Qed.

End Facts.

(** C2 as stated fails.  When the first output of the funding transaction
    is locked by some other script, the refund is signed against that
    script: with the toy library, where a signature shows the script it
    signs, the signature in the unlocking script is over [OP_DUP
    OP_CHECKSIG], and over no escrow script, whatever the peer address and
    the secret hash. *)
Lemma build_tx2_signs_what_tx1_records :
  let sig := [OP_DUP; OP_CHECKSIG] ++ [x01] in
  exists tx2 script,
    build_tx2 (H := Fixtures.lib) (Fixtures.wallet []) Fixtures.plain_tx1
      1500086400 Fixtures.alice (Fixtures.flat_fee 1000) = ok tx2
    /\ map scriptSig (vin tx2) = [script]
    /\ elements script = ok [Some sig; Some [x5e; xc1]]
    /\ forall peer sh escrow unsigned,
         build_tx1_cscript (H := Fixtures.lib) Fixtures.alice peer sh
           = ok escrow ->
         sig <> key_sign (BitcoinLib := Fixtures.lib) [x5e; xc1]
                  (SignatureHash (BitcoinLib := Fixtures.lib) escrow unsigned
                     0 SIGHASH_ALL)
                ++ py_bytes (BitcoinLib := Fixtures.lib) [SIGHASH_ALL].
Proof.
  cbv zeta. eexists _, _.
  split; [reflexivity|]. split; [reflexivity|]. split; [reflexivity|].
  intros peer sh escrow unsigned
    [rest ->]%(EscrowScript.build_tx1_cscript_head (H := Fixtures.lib)).
  cbn. discriminate.
Qed.

Lemma build_tx2_signs_recorded_script_witness :
  exists script,
    build_tx2 (H := Fixtures.lib) (Fixtures.wallet []) Fixtures.plain_tx1
      1500086400 Fixtures.alice (Fixtures.flat_fee 1000)
    = ok (mkTx
            [mkTxIn (mkOutPoint (GetHash (BitcoinLib := Fixtures.lib)
                                   Fixtures.plain_tx1) 0) script 1]
            [mkTxOut (100000 - 1000)
               (to_scriptPubKey (BitcoinLib := Fixtures.lib) Fixtures.alice)]
            1500086400 1)
    /\ elements script = ok [Some [OP_DUP; OP_CHECKSIG; x01]; Some [x5e; xc1]].
Proof.
  apply (build_tx2_signs_recorded_script (H := Fixtures.lib)
           (Fixtures.wallet []) Fixtures.plain_tx1 1500086400 Fixtures.alice
           (Fixtures.flat_fee 1000) (mkTxOut 100000 [OP_DUP; OP_CHECKSIG])
           [x5e; xc1]).
  - reflexivity.
  - reflexivity.
  - lia.
  - unfold pushable. vm_compute. discriminate.
  - unfold pushable. vm_compute. discriminate.
Defined.

End RefundBuilder.

(** ** The cooperative signer *)

Module CooperativeSigner.
Import Script Core Store Tx ScriptFacts StoreFacts.

Section Facts.
Context `{BitcoinLib}.

(** Whatever [sign_tx2] does, the store it leaves extends the store it
    found, and a transaction it returns is a new object whose only input
    is a new object too. *)
Lemma sign_tx2_inv (proxy : Proxy) (tx2 : loc) (own peer : Address)
    (sh : bytes) (h h' : gmap loc obj) (r : result loc) :
  sign_tx2 proxy tx2 own peer sh h = (r, h') ->
  h ⊆ h' /\
  forall tx2', r = ok tx2' ->
    h !! tx2' = None /\
    exists txin' vout lt ver,
      h' !! tx2' = Some (OTx [txin'] vout lt ver) /\
      h !! txin' = None /\ is_Some (h' !! txin').
Proof.
  intros E. unfold sign_tx2 in E. unfold hbind at 1 in E.
  destruct (load_tx tx2 h) as [[e|[[[vin2 vout2] lt2] ver2]] h1] eqn:E1;
    apply load_tx_inv in E1 as [-> Htx2]; [raised E|].
  specialize (Htx2 _ _ _ _ eq_refl).
  destruct (Nat.eqb_spec (length vin2) 1) as [Hlen|]; cbn [negb] in E;
    [|raised E].
  destruct vin2 as [|l0 [|]]; try discriminate Hlen. clear Hlen.
  unfold hbind at 1 in E. rewrite hbind_hlift in E.
  change (index [l0] 0) with (ok l0) in E. unfold ok at 1 in E.
  destruct (load_txin l0 h) as [[e|txin0] h1] eqn:E2;
    apply load_txin_inv in E2 as [-> _]; [raised E|].
  destruct (raw_iter (scriptSig txin0)) as [items end_exn].
  rewrite hbind_hlift in E.
  destruct (sign_tx2_loop items end_exn None None) as [e|[other_sig other_pubkey]];
    [raised E|].
  destruct (py_not other_sig || py_not other_pubkey); [raised E|].
  rewrite hbind_hlift in E.
  destruct (dumpprivkey proxy own) as [e|seckey]; [raised E|].
  rewrite hbind_hlift in E.
  destruct (build_tx1_cscript peer own sh) as [e|txin_scriptPubKey];
    [raised E|].
  unfold hbind at 1 in E.
  destruct (snapshot tx2 h) as [[e|tx2_read] h1] eqn:E3;
    apply snapshot_inv in E3 as [-> _]; [raised E|].
  unfold hbind at 1 in E.
  destruct (from_tx tx2 h) as [[e|tx2'] h1] eqn:E4;
    apply from_tx_inv in E4 as [Hsub Hnew]; [raised E|].
  destruct (Hnew _ eq_refl)
    as (Hfresh & vin & vin' & vout & lt & ver & Hold & Hcopy & Hlen & Hvin').
  rewrite Htx2 in Hold. injection Hold as <- <- <- <-.
  destruct vin' as [|l' [|]]; try discriminate Hlen. clear Hlen.
  apply Forall_inv in Hvin'.
  rewrite hbind_hlift in E.
  destruct (CScript_new _ _) as [e|script]; [raised E|].
  unfold hbind at 1, load_tx at 1 in E. rewrite Hcopy in E.
  unfold ok at 1 in E. rewrite hbind_hlift in E.
  change (index [l'] 0) with (ok l') in E. unfold ok at 1 in E.
  unfold hbind in E.
  destruct (store_scriptSig l' script h1) as [r5 h5] eqn:E5.
  apply store_scriptSig_inv in E5
    as [[-> [e ->]] | (txin' & Hl' & -> & ->)]; [raised E|].
  unfold hret in E. injection E as <- <-.
  split; [by apply insert_subseteq_r|].
  intros ? [= <-]. split; [done|].
  exists l', vout2, lt2, ver2.
  rewrite lookup_insert_ne by congruence.
  rewrite lookup_insert_eq. eauto.
Qed.

(** The elements the loop of [sign_tx2] lets through: any number of
    elements without data, the signature, any number of elements without
    data again, the public key.  An element without data is stored like
    any other, and the variable it is stored in still compares equal to
    [None]. *)
Lemma sign_tx2_loop_skips (before between : list raw_item)
    (o1 o2 : byte) (i1 i2 : nat) (other_sig other_pubkey : bytes) :
  Forall (fun it : raw_item => it.1.2 = None) before ->
  Forall (fun it : raw_item => it.1.2 = None) between ->
  sign_tx2_loop
    (before ++ (o1, Some other_sig, i1) :: between
       ++ [(o2, Some other_pubkey, i2)]) None None None
  = ok (Some other_sig, Some other_pubkey).
Proof.
  intros Hbefore Hbetween.
  induction Hbefore as [|[[o d] i] before Hd _ IH]; cbn in *.
  - induction Hbetween as [|[[o d] i] between Hd _ IH]; cbn in *; [done|].
    by subst d.
  - by subst d.
Qed.

(** With fewer than two elements one of the two variables is still
    [None] after the loop, and the test that follows raises. *)
Lemma sign_tx2_loop_short (items : list raw_item) (end_exn : option exn)
    (r : option bytes * option bytes) :
  (length items < 2)%nat ->
  sign_tx2_loop items end_exn None None = ok r ->
  py_not r.1 || py_not r.2 = true.
Proof.
  destruct items as [|[[o d] i] [|]]; cbn; [| |lia]; intros _.
  - destruct end_exn; [done|]. by intros [= <-].
  - destruct d; (destruct end_exn; [done|]); intros [= <-]; cbn;
      by rewrite ?orb_true_r.
Qed.

(** With exactly two elements, both non-empty byte strings, [sign_tx2]
    returns a copy of the transaction whose input carries six elements:
    [OP_0] (which pushes the empty string), this party's signature, the
    peer's signature, this party's public key, the peer's public key and
    [OP_2].  The signature hash is taken over the escrow script built with
    the roles reversed, [build_tx1_cscript(peer_address, own_address,
    secret_hash)], and over the transaction as the peer sent it. *)
Lemma sign_tx2_two_elements (proxy : Proxy) (tx2 l0 : loc)
    (own peer : Address) (sh : bytes) (h : gmap loc obj)
    (vout : list CTxOut) (lt ver : Z) (txin0 : CTxIn)
    (other_sig other_pubkey : bytes) (seckey : CKey) (escrow : CScript) :
  let sighash :=
    SignatureHash escrow (mkTx [txin0] vout lt ver) 0 SIGHASH_ALL in
  let sig := key_sign seckey sighash ++ py_bytes [SIGHASH_ALL] in
  h !! tx2 = Some (OTx [l0] vout lt ver) ->
  h !! l0 = Some (OTxIn txin0) ->
  0 <= lt <= 0xffffffff ->
  elements (scriptSig txin0) = ok [Some other_sig; Some other_pubkey] ->
  other_sig <> [] -> other_pubkey <> [] ->
  dumpprivkey proxy own = ok seckey ->
  build_tx1_cscript peer own sh = ok escrow ->
  pushable sig -> pushable (key_pub seckey) ->
  pushable other_sig -> pushable other_pubkey ->
  exists tx2' l' h' script,
    sign_tx2 proxy tx2 own peer sh h = (ok tx2', h')
    /\ h' !! tx2' = Some (OTx [l'] vout lt ver)
    /\ h' !! l' =
         Some (OTxIn (mkTxIn (prevout txin0) script (nSequence txin0)))
    /\ elements script =
         ok [Some []; Some sig; Some other_sig; Some (key_pub seckey);
             Some other_pubkey; None].
Proof.
  cbv zeta.
  intros Htx2 Hl0 Hlt (o1 & i1 & o2 & i2 & Hiter)%elements_two Hs Hp Hkey
    Hescrow Psig Ppub Pos Pop.
  destruct (from_tx_eval tx2 l0 h vout lt ver txin0 Htx2 Hl0 Hlt)
    as (l1 & l2 & Hcopy & Hf1 & Hf2 & Hne).
  destruct (encode_op_pushdata_ok _ Psig) as [b1 E1].
  destruct (encode_op_pushdata_ok _ Ppub) as [b2 E2].
  destruct (encode_op_pushdata_ok _ Pos) as [b3 E3].
  destruct (encode_op_pushdata_ok _ Pop) as [b4 E4].
  set (sig := key_sign seckey
                (SignatureHash escrow (mkTx [txin0] vout lt ver) 0 SIGHASH_ALL)
              ++ py_bytes [SIGHASH_ALL]) in *.
  assert (CScript_new bn2vch
            [IInt 0; IBytes sig; IBytes other_sig; IBytes (key_pub seckey);
             IBytes other_pubkey; IInt 2]
          = ok ([OP_0] ++ b1 ++ b3 ++ b2 ++ b4 ++ [OP_2] ++ [])) as Escript.
  { cbn [CScript_new coerce_instance]. by rewrite E1, E2, E3, E4. }
  eexists l2, l1, _, _. split; [|split; [|split]].
  - unfold sign_tx2, hbind at 1. rewrite (load_tx_eval _ _ _ _ _ _ Htx2).
    unfold ok at 1. cbn [length Nat.eqb negb].
    unfold hbind at 1. rewrite hbind_hlift.
    change (index [l0] 0) with (ok l0). unfold ok at 1.
    rewrite (load_txin_eval _ _ _ Hl0). unfold ok at 1.
    rewrite Hiter. rewrite hbind_hlift.
    cbn [sign_tx2_loop]. unfold ok at 1.
    destruct other_sig as [|s0 other_sig]; [done|].
    destruct other_pubkey as [|p0 other_pubkey]; [done|].
    cbn [py_not orb the_bytes default from_option id].
    rewrite hbind_hlift, Hkey. unfold ok at 1.
    rewrite hbind_hlift, Hescrow. unfold ok at 1.
    unfold hbind at 1, snapshot, hbind at 1.
    rewrite (load_tx_eval _ _ _ _ _ _ Htx2). unfold ok at 1.
    cbn [hmap]. unfold hbind at 1, hbind at 1.
    rewrite (load_txin_eval _ _ _ Hl0). unfold ok at 1.
    unfold hbind at 1, hret at 1, ok at 1. unfold hret at 1, ok at 1.
    unfold hret at 1, ok at 1.
    unfold hbind at 1. rewrite Hcopy. unfold ok at 1.
    rewrite hbind_hlift. fold sig. rewrite Escript. unfold ok at 1.
    unfold hbind at 1. rewrite (load_tx_eval l2 _ [l1] vout lt ver)
      by apply lookup_insert_eq.
    unfold ok at 1. rewrite hbind_hlift.
    change (index [l1] 0) with (ok l1). unfold ok at 1.
    unfold hbind at 1, store_scriptSig, hbind at 1.
    rewrite (load_txin_eval l1 _ txin0)
      by (rewrite lookup_insert_ne by done; apply lookup_insert_eq).
    unfold ok at 1. unfold hret. reflexivity.
  - rewrite lookup_insert_ne by done. apply lookup_insert_eq.
  - apply lookup_insert_eq.
  - apply (elements_CScript_new bn2vch
             [IInt 0; IBytes sig; IBytes other_sig; IBytes (key_pub seckey);
              IBytes other_pubkey; IInt 2]);
      [repeat constructor | exact Escript].
Qed.

(** C10. [sign_tx2] changes no object that existed when it was called:
    every location of the caller's store holds afterwards what it held
    before, so the transaction passed as [tx2] and its input read as
    before.  The transaction it returns is a new object, and so is the
    input that carries the combined unlocking script. *)
Theorem sign_tx2_leaves_argument_unchanged (proxy : Proxy) (tx2 : loc)
    (own peer : Address) (sh : bytes) (h : gmap loc obj) :
  let '(r, h') := sign_tx2 proxy tx2 own peer sh h in
  (forall l o, h !! l = Some o -> h' !! l = Some o)
  /\ (forall v, (snapshot tx2 h).1 = ok v -> (snapshot tx2 h').1 = ok v)
  /\ (forall tx2',
        r = ok tx2' ->
        h !! tx2' = None /\
        exists txin' vout lt ver,
          h' !! tx2' = Some (OTx [txin'] vout lt ver) /\
          h !! txin' = None /\ is_Some (h' !! txin')).
Proof.
  destruct (sign_tx2 proxy tx2 own peer sh h) as [r h'] eqn:E.
  apply sign_tx2_inv in E as [Hsub Hnew].
  split; [|split].
  - intros l o Hl. by eapply lookup_weaken.
  - intros v. by apply snapshot_mono.
  - exact Hnew.
Qed.

End Facts.

(** C4 at an unlocking script of three elements, [OP_1], a signature and
    a public key: [sign_tx2] raises nothing and returns a transaction
    whose input carries the six elements. *)
Lemma sign_tx2_accepts_three_elements :
  elements Fixtures.three_elements = ok [None; Some [xaa]; Some [xbb]]
  /\ exists tx2' h' signed script escrow,
       sign_tx2 (H := Fixtures.lib) (Fixtures.wallet []) 1%positive
         Fixtures.alice Fixtures.bob Fixtures.secret_hash
         (Fixtures.store_with Fixtures.three_elements) = (ok tx2', h')
       /\ (snapshot tx2' h').1 = ok signed
       /\ map scriptSig (vin signed) = [script]
       /\ build_tx1_cscript (H := Fixtures.lib) Fixtures.bob Fixtures.alice
            Fixtures.secret_hash = ok escrow
       /\ elements script =
            ok [Some []; Some (escrow ++ [x01]); Some [xaa];
                Some [x5e; xc1]; Some [xbb]; None].
Proof.
  split; [reflexivity|].
  eexists _, _, _, _, _.
  split; [vm_compute; reflexivity|].
  split; [vm_compute; reflexivity|].
  split; [reflexivity|].
  split; [vm_compute; reflexivity|].
  vm_compute. reflexivity.
Qed.

(** A run on the two-element script that [build_tx2] leaves: the copy at
    the new location 3 gets the six elements, the caller's input at
    location 2 keeps its two. *)
Example sign_tx2_two_elements_run :
  let out :=
    sign_tx2 (H := Fixtures.lib) (Fixtures.wallet []) 1%positive
      Fixtures.alice Fixtures.bob Fixtures.secret_hash
      (Fixtures.store_with Fixtures.two_elements) in
  out.1 = ok 4%positive
  /\ out.2 !! 4%positive
     = Some (OTx [3%positive] [Fixtures.a_txout] 1500086400 1)
  /\ out.2 !! 1%positive
     = Some (OTx [2%positive] [Fixtures.a_txout] 1500086400 1)
  /\ out.2 !! 2%positive
     = Some (OTxIn (mkTxIn (mkOutPoint (repeat x00 32) 0)
                      Fixtures.two_elements 1))
  /\ exists script escrow,
       out.2 !! 3%positive
         = Some (OTxIn (mkTxIn (mkOutPoint (repeat x00 32) 0) script 1))
       /\ build_tx1_cscript (H := Fixtures.lib) Fixtures.bob Fixtures.alice
            Fixtures.secret_hash = ok escrow
       /\ elements script =
            ok [Some []; Some (escrow ++ [x01]); Some [xaa];
                Some [x5e; xc1]; Some [xbb]; None].
Proof.
  cbv zeta.
  split; [vm_compute; reflexivity|].
  split; [vm_compute; reflexivity|].
  split; [vm_compute; reflexivity|].
  split; [vm_compute; reflexivity|].
  eexists _, _.
  split; [vm_compute; reflexivity|].
  split; [vm_compute; reflexivity|].
  vm_compute. reflexivity.
Qed.

End CooperativeSigner.

(** ** The secret-spend builder *)

Module SecretSpend.
Import Script Core Tx ScriptFacts.

Section Facts.
Context `{BitcoinLib}.

(** C7 on the module as it is written.  [build_tx3_spend] reads
    [fee_rate] in its first statement; the name is no parameter of the
    function and is bound nowhere in the module, so every call raises
    [NameError] before anything is built. *)
Theorem build_tx3_spend_raises_name_error (proxy : Proxy)
    (tx1 : CTransaction) (secret : bytes) (own : Address) :
  build_tx3_spend module_globals proxy tx1 secret own
    = raise NameError "global name 'fee_rate' is not defined".
Proof.
  unfold build_tx3_spend, load_global.
  replace (module_globals !! "fee_rate"%string) with (@None global)
    by (vm_compute; reflexivity).
  reflexivity.
Qed.

(** [seckey] is in the same position: bound nowhere either. *)
Lemma seckey_unbound : module_globals !! "seckey"%string = None.
Proof. vm_compute. reflexivity. Qed.

(** What the body would build if the two names were bound, to a fee rate
    and to the signing key: one input spending output 0 of [tx1], one
    output paying its value minus the fee to the own address, and an
    unlocking script of four elements: the secret, the signature, the
    public key and [OP_0], which pushes the empty string. *)
Lemma build_tx3_spend_with_globals (globals : gmap string global)
    (proxy : Proxy) (tx1 : CTransaction) (secret : bytes) (own : Address)
    (fee_rate : FeeRate) (seckey : CKey) (prev_out : CTxOut) :
  let txouts :=
    [mkTxOut (nValue prev_out - get_fee fee_rate 1000) (to_scriptPubKey own)] in
  let unsigned :=
    mkTx [mkTxIn (mkOutPoint (GetHash tx1) 0) [] 1] txouts 0 1 in
  let sighash := SignatureHash (scriptPubKey prev_out) unsigned 0 SIGHASH_ALL in
  let sig := key_sign seckey sighash ++ py_bytes [SIGHASH_ALL] in
  globals !! "fee_rate"%string = Some (GFeeRate fee_rate) ->
  globals !! "seckey"%string = Some (GKey seckey) ->
  vout tx1 !! 0%nat = Some prev_out ->
  pushable secret -> pushable sig -> pushable (key_pub seckey) ->
  exists script,
    build_tx3_spend globals proxy tx1 secret own
      = ok (mkTx [mkTxIn (mkOutPoint (GetHash tx1) 0) script 1] txouts 0 1)
    /\ elements script
       = ok [Some secret; Some sig; Some (key_pub seckey); Some []].
Proof.
  cbv zeta. intros Hfee Hkey Hout Psecret Psig Ppub.
  destruct (encode_op_pushdata_ok _ Psecret) as [b1 E1].
  destruct (encode_op_pushdata_ok _ Psig) as [b2 E2].
  destruct (encode_op_pushdata_ok _ Ppub) as [b3 E3].
  set (sig := key_sign seckey _ ++ py_bytes [SIGHASH_ALL]) in *.
  assert (CScript_new bn2vch
            [IBytes secret; IBytes sig; IBytes (key_pub seckey); IInt 0]
          = ok (b1 ++ b2 ++ b3 ++ [OP_0] ++ [])) as Escript.
  { cbn [CScript_new coerce_instance]. by rewrite E1, E2, E3. }
  eexists. split.
  - unfold build_tx3_spend, load_global, index.
    rewrite Hfee, Hkey, Hout. cbn [rbind ok as_fee_rate as_key].
    unfold CMutableTransaction, CMutableTxIn.
    change (check_nLockTime 0) with (ok tt). cbn [rbind ok].
    fold sig. rewrite Escript. reflexivity.
  - apply (elements_CScript_new bn2vch
             [IBytes secret; IBytes sig; IBytes (key_pub seckey); IInt 0]);
      [repeat constructor | exact Escript].
Qed.

End Facts.
End SecretSpend.

(** ** More on scripts *)

Module ScriptMore.
Import Script Core ScriptFacts.

Section Facts.
Context `{BitcoinLib}.

(** [CScript([...])] raises nothing but [ValueError]. *)
Lemma CScript_new_raises (value : list item) (e : exn) :
  CScript_new bn2vch value = inl e -> exn_kind e = ValueError.
Proof.
  revert e. induction value as [|x value IH]; intros e; cbn; [done|].
  destruct (coerce_instance bn2vch x) as [e'|b] eqn:Ex.
  - intros [= <-].
    assert (forall d, encode_op_pushdata d = inl e' ->
                      exn_kind e' = ValueError) as Hpush.
    { intros d. unfold encode_op_pushdata.
      repeat case_match; try discriminate. by intros [= <-]. }
    destruct x as [op|k|d]; cbn in Ex; unfold ok in Ex;
      [discriminate | | exact (Hpush _ Ex)].
    repeat case_match; try discriminate. exact (Hpush _ Ex).
  - cbn. destruct (CScript_new bn2vch value) as [e'|bs]; [|done].
    intros [= <-]. by apply IH.
Qed.

End Facts.
End ScriptMore.

(** ** More on the refund validator *)

Module ValidatorWindow.
Import Script Core Tx.

Section Facts.
Context `{BitcoinLib}.

(** X1. The two bounds of the window come from two readings of the
    clock, each cut to whole seconds: a transaction passes exactly when
    its lock time is at least the first reading plus 12 hours and at most
    the second reading plus 72 hours, it has one input whose sequence
    number is not 0xffffffff, and one output.  The microseconds of the
    readings play no part. *)
Theorem assert_tx2_valid_two_readings (utcnow_min utcnow_max : datetime)
    (tx2 : CTransaction) :
  assert_tx2_valid utcnow_min utcnow_max tx2 = ok tt <->
    epoch_seconds utcnow_min + 12 * 3600 <= nLockTime tx2
      <= epoch_seconds utcnow_max + 72 * 3600
    /\ exists txin txout,
         vin tx2 = [txin] /\ vout tx2 = [txout]
         /\ nSequence txin <> 0xffffffff.
Proof.
  destruct tx2 as [vin vout lock_time ver].
  unfold assert_tx2_valid, add_hours, timegm_timetuple. cbn.
  destruct (Z.ltb_spec lock_time (epoch_seconds utcnow_min + 12 * 3600));
    [split; [discriminate | lia]|].
  destruct (Z.gtb_spec lock_time (epoch_seconds utcnow_max + 72 * 3600));
    [split; [discriminate | lia]|].
  destruct vin as [|txin [|txin' vin]]; cbn;
    [split; [discriminate | intros (_ & ? & ? & [=] & _)] | |
     split; [discriminate | intros (_ & ? & ? & [=] & _)]].
  destruct vout as [|txout [|txout' vout]]; cbn;
    [split; [discriminate | intros (_ & ? & ? & _ & [=] & _)] | |
     split; [discriminate | intros (_ & ? & ? & _ & [=] & _)]].
  destruct (Z.eqb_spec (nSequence txin) 4294967295) as [Hseq|Hseq].
  - split; [discriminate|]. intros (_ & ? & ? & [= <-] & _ & Hne). done.
  - split; [|done]. intros _. split; [lia|]. eauto.
Qed.

(** X2. The verdict, message included, depends on the lock time, on the
    number of inputs and of outputs and on the sequence number of the
    first input, and on nothing else: what the refund spends, what it
    pays and to whom are not looked at. *)
Theorem assert_tx2_valid_looks_at (utcnow_min utcnow_max : datetime)
    (tx2 tx2' : CTransaction) :
  nLockTime tx2 = nLockTime tx2' ->
  length (vin tx2) = length (vin tx2') ->
  length (vout tx2) = length (vout tx2') ->
  nSequence <$> vin tx2 !! 0%nat = nSequence <$> vin tx2' !! 0%nat ->
  assert_tx2_valid utcnow_min utcnow_max tx2
    = assert_tx2_valid utcnow_min utcnow_max tx2'.
Proof.
  destruct tx2 as [vin vout lt ver], tx2' as [vin' vout' lt' ver'].
  cbn. intros <- Hvin Hvout Hseq.
  unfold assert_tx2_valid. cbn. rewrite <- Hvin, <- Hvout.
  destruct (lt <? _); [done|]. destruct (lt >? _); [done|].
  destruct (negb _); [done|]. destruct (negb _); [done|].
  destruct vin as [|txin vin], vin' as [|txin' vin']; try discriminate Hvin;
    [done|].
  cbn in *. injection Hseq as ->. done.
Qed.

End Facts.

Lemma assert_tx2_valid_looks_at_witness :
  assert_tx2_valid (H := Fixtures.lib) Fixtures.noon Fixtures.noon
    (Fixtures.refund 1500086400 [Fixtures.a_txin 1] [Fixtures.a_txout])
  = assert_tx2_valid (H := Fixtures.lib) Fixtures.noon Fixtures.noon
      (Fixtures.refund 1500086400
         [mkTxIn (mkOutPoint (repeat x07 32) 3) [OP_DUP] 1]
         [mkTxOut 0 []]).
Proof.
  apply (assert_tx2_valid_looks_at (H := Fixtures.lib)); reflexivity.
Defined.

End ValidatorWindow.

(** ** More on the coin selector *)

Module Selection.
Import Script Core Tx.



(** With no negative amount, a prefix is worth no more than the whole. *)
Lemma sum_amounts_take_le (l : list UnspentOutput) (k : nat) :
  Forall (fun u => 0 <= amount u) l ->
  0 <= sum_amounts (take k l) <= sum_amounts l.
Proof.
  intros Hpos. revert k.
  induction Hpos as [|u l Hu _ IH]; intros [|k]; cbn; try lia.
  - unfold sum_amounts in *. specialize (IH 0%nat). rewrite take_0 in IH.
    cbn in IH. lia.
  - specialize (IH k). unfold sum_amounts in *. lia.
Qed.

(** The three ways [find_inputs] can end once the wallet has answered:
    it stops at the first non-empty prefix that reaches the target; or
    the wallet is empty and the target is not positive; or no non-empty
    prefix reaches the target and it raises. *)
Lemma find_inputs_cases (proxy : Proxy) (quantity : Z)
    (unspent : list UnspentOutput) :
  listunspent proxy 0 = ok unspent ->
  (exists k,
      (0 < k <= length unspent)%nat /\
      find_inputs proxy quantity =
        ok (map txin_of (take k unspent), sum_amounts (take k unspent)) /\
      quantity <= sum_amounts (take k unspent) /\
      forall j, (0 < j < k)%nat -> sum_amounts (take j unspent) < quantity)
  \/ (unspent = [] /\ quantity <= 0 /\ find_inputs proxy quantity = ok ([], 0))
  \/ (find_inputs proxy quantity = raise FundsError "Insufficient funds." /\
      sum_amounts unspent < quantity /\
      forall j, (0 < j <= length unspent)%nat ->
                sum_amounts (take j unspent) < quantity).
Proof.
  intros Hlist. unfold find_inputs. rewrite Hlist. cbn [rbind ok].
  destruct (CoinSelector.find_inputs_loop_spec unspent quantity 0 [])
    as [(k & Hk & Heq & Hcov & Hmin) | [Heq Hall]];
    rewrite Heq; cbn [app]; rewrite !Z.add_0_l in *.
  - left. exists k.
    destruct (Z.ltb_spec (sum_amounts (take k unspent)) quantity); [lia|].
    repeat split; [lia | lia | done |].
    intros j Hj. specialize (Hmin j Hj). lia.
  - destruct unspent as [|txout unspent].
    + cbn. destruct (Z.ltb_spec 0 quantity).
      * right. right. repeat split; [done|]. cbn. lia.
      * right. left. done.
    + right. right.
      assert (sum_amounts (txout :: unspent) < quantity) as Hsum.
      { specialize (Hall (length (txout :: unspent))).
        rewrite firstn_all in Hall. cbn [length] in Hall. lia. }
      destruct (Z.ltb_spec (sum_amounts (txout :: unspent)) quantity);
        [|lia].
      repeat split; [done|].
      intros j Hj. specialize (Hall j Hj). lia.
Qed.

(** X3. When no unspent output has a negative amount, [find_inputs]
    raises [FundsError] exactly when the whole wallet is worth less than
    the target; otherwise it returns a total between the target and the
    worth of the wallet. *)
Theorem find_inputs_funds (proxy : Proxy) (quantity : Z)
    (unspent : list UnspentOutput) :
  listunspent proxy 0 = ok unspent ->
  Forall (fun u => 0 <= amount u) unspent ->
  (sum_amounts unspent < quantity ->
     find_inputs proxy quantity = raise FundsError "Insufficient funds.")
  /\ (quantity <= sum_amounts unspent ->
      exists txins total_in,
        find_inputs proxy quantity = ok (txins, total_in)
        /\ quantity <= total_in <= sum_amounts unspent).
Proof.
  intros Hlist Hpos.
  destruct (find_inputs_cases proxy quantity unspent Hlist)
    as [(k & Hk & Heq & Hcov & _) | [(-> & Hq & Heq) | (Heq & Hsum & _)]].
  - pose proof (sum_amounts_take_le unspent k Hpos). split; [lia|].
    intros _. eexists _, _. split; [exact Heq | lia].
  - cbn. split; [lia|]. intros _. eexists _, _. split; [exact Heq | lia].
  - split; [done | lia].
Qed.


(** X5. Asking for less never selects more: for a smaller target the
    selection is a prefix of the selection for the larger one. *)
Theorem find_inputs_monotone (proxy : Proxy) (quantity quantity' : Z)
    (unspent : list UnspentOutput) (txins : list CTxIn) (total_in : Z) :
  listunspent proxy 0 = ok unspent ->
  quantity' <= quantity ->
  find_inputs proxy quantity = ok (txins, total_in) ->
  exists txins' total_in',
    find_inputs proxy quantity' = ok (txins', total_in')
    /\ txins' `prefix_of` txins.
Proof.
  intros Hlist Hle Hfind.
  destruct (find_inputs_cases proxy quantity unspent Hlist)
    as [(k & Hk & Heq & Hcov & Hmin) | [(-> & Hq & Heq) | (Heq & _)]];
    [| | rewrite Heq in Hfind; discriminate];
    rewrite Heq in Hfind; injection Hfind as <- <-.
  - destruct (find_inputs_cases proxy quantity' unspent Hlist)
      as [(k' & Hk' & Heq' & Hcov' & Hmin')
         | [(-> & _) | (_ & _ & Hall')]].
    + eexists _, _. split; [exact Heq'|].
      assert (k' <= k)%nat as Hkk.
      { destruct (Nat.le_gt_cases k' k) as [|Hgt]; [done|].
        specialize (Hmin' k). lia. }
      exists (map txin_of (drop k' (take k unspent))).
      rewrite <- map_app. f_equal.
      rewrite <- (take_drop k' (take k unspent)) at 1.
      f_equal. rewrite take_take. f_equal. lia.
    + cbn in Hk. lia.
    + specialize (Hall' k). lia.
  - destruct (find_inputs_cases proxy quantity' [] Hlist)
      as [(k' & Hk' & _) | [(_ & _ & Heq') | (_ & Hsum & _)]].
    + cbn in Hk'. lia.
    + eexists _, _. split; [exact Heq' | done].
    + cbn in Hsum. lia.
Qed.

Lemma find_inputs_funds_witness :
  find_inputs Fixtures.wallet_30_50_20 101
    = raise FundsError "Insufficient funds."
  /\ exists txins total_in,
       find_inputs Fixtures.wallet_30_50_20 100 = ok (txins, total_in)
       /\ 100 <= total_in <= 100.
Proof.
  pose proof (find_inputs_funds Fixtures.wallet_30_50_20) as Hfunds.
  split.
  - apply (Hfunds 101 _ eq_refl); [repeat constructor; cbn; lia|].
    vm_compute. reflexivity.
  - apply (Hfunds 100 _ eq_refl); [repeat constructor; cbn; lia|].
    vm_compute. discriminate.
Defined.


Lemma find_inputs_monotone_witness :
  exists txins' total_in',
    find_inputs Fixtures.wallet_30_50_20 20 = ok (txins', total_in')
    /\ txins' `prefix_of`
         [txin_of (Fixtures.utxo x01 30); txin_of (Fixtures.utxo x02 50)].
Proof.
  apply (find_inputs_monotone Fixtures.wallet_30_50_20 40 20
           [Fixtures.utxo x01 30; Fixtures.utxo x02 50; Fixtures.utxo x03 20]
           _ 80);
    [reflexivity | lia | reflexivity].
Defined.

End Selection.

(** ** More on the escrow script *)

Module EscrowLayout.
Import Script Core Tx ScriptFacts.

Section Facts.
Context `{BitcoinLib}.

(** X6. The escrow script is built exactly when the two addresses and
    the text of the secret hash each fit a PUSHDATA element (at most
    0xffffffff bytes); when it is not built the exception is a
    [ValueError]. *)
Theorem build_tx1_cscript_built_iff (own peer : Address) (sh : bytes) :
  ((exists script, build_tx1_cscript own peer sh = ok script) <->
     pushable own /\ pushable peer /\ pushable (b2x sh))
  /\ (forall e, build_tx1_cscript own peer sh = inl e ->
                exn_kind e = ValueError).
Proof.
  split; [split|].
  - intros [script (pb & ob & hb & Hp & Ho & Hh & _)%
                     EscrowScript.build_tx1_cscript_inv].
    repeat split; eapply encode_op_pushdata_pushable; eassumption.
  - intros (Ho & Hp & Hh). by apply EscrowScript.build_tx1_cscript_ok.
  - intros e. apply ScriptMore.CScript_new_raises.
Qed.

(** X7. The script determines what it was built from: two escrow
    scripts are the same bytes only if the own addresses agree, the peer
    addresses agree and the texts of the secret hashes agree. *)
Theorem build_tx1_cscript_injective (own peer own' peer' : Address)
    (sh sh' : bytes) (script : CScript) :
  build_tx1_cscript own peer sh = ok script ->
  build_tx1_cscript own' peer' sh' = ok script ->
  own = own' /\ peer = peer' /\ b2x sh = b2x sh'.
Proof.
  intros (pb & ob & hb & Hp & Ho & Hh & ->)%EscrowScript.build_tx1_cscript_inv
         (pb' & ob' & hb' & Hp' & Ho' & Hh' & E)%
           EscrowScript.build_tx1_cscript_inv.
  unfold escrow_layout in E. cbn [app] in E. injection E as E.
  destruct (encode_op_pushdata_prefix_free _ _ _ _ _ _ Hp Hp' E) as [-> E1].
  injection E1 as E1.
  destruct (encode_op_pushdata_prefix_free _ _ _ _ _ _ Ho Ho' E1) as [-> E2].
  injection E2 as E2.
  destruct (encode_op_pushdata_prefix_free _ _ _ _ _ _ Hp Hp' E2) as [_ E3].
  injection E3 as E3.
  destruct (encode_op_pushdata_prefix_free _ _ _ _ _ _ Hh Hh' E3) as [E4 _].
  done.
Qed.

(** X8. Read back with [raw_iter], the script is the twenty elements of
    the source in their order: the peer address is the data of elements
    3 and 13, the own address of element 6, the text of the secret hash
    of element 17, and no other element carries data. *)
Theorem build_tx1_cscript_elements (own peer : Address) (sh : bytes)
    (script : CScript) :
  build_tx1_cscript own peer sh = ok script ->
  elements script =
    ok [None; None; None; Some peer; None; None; Some own; None; None; None;
        None; None; None; Some peer; None; None; None; Some (b2x sh);
        None; None].
Proof.
  intros E. unfold build_tx1_cscript in E.
  apply (elements_CScript_new bn2vch _ _) in E; [exact E|].
  repeat (apply Forall_cons; split; [vm_compute; done|]).
  apply Forall_nil_2.
Qed.

End Facts.

Lemma build_tx1_cscript_injective_witness :
  Fixtures.alice = Fixtures.alice /\ Fixtures.bob = Fixtures.bob
  /\ b2x (BitcoinLib := Fixtures.lib) Fixtures.secret_hash
     = b2x (BitcoinLib := Fixtures.lib) Fixtures.secret_hash.
Proof.
  eapply (build_tx1_cscript_injective (H := Fixtures.lib)); reflexivity.
Defined.

Lemma build_tx1_cscript_elements_witness :
  exists script,
    build_tx1_cscript (H := Fixtures.lib) Fixtures.alice Fixtures.bob
      Fixtures.secret_hash = ok script
    /\ elements script =
       ok [None; None; None; Some Fixtures.bob; None; None;
           Some Fixtures.alice; None; None; None; None; None; None;
           Some Fixtures.bob; None; None; None; Some Fixtures.secret_hash;
           None; None].
Proof.
  eexists. split; [reflexivity|].
  apply (build_tx1_cscript_elements (H := Fixtures.lib) Fixtures.alice
           Fixtures.bob Fixtures.secret_hash).
  reflexivity.
Defined.

End EscrowLayout.

(** ** More on the funding transaction *)

Module Funding.
Import Script Core Tx Derived.

(** A selection that is returned reaches the target. *)
Lemma find_inputs_reaches (proxy : Proxy) (quantity : Z)
    (txins : list CTxIn) (total_in : Z) :
  find_inputs proxy quantity = ok (txins, total_in) -> quantity <= total_in.
Proof.
  unfold find_inputs. destruct (listunspent proxy 0) as [e|unspent]; [done|].
  cbn. destruct (find_inputs_loop unspent quantity 0 []) as [ins t].
  destruct (Z.ltb_spec t quantity); [done|]. intros [= _ <-]. lia.
Qed.

Section Facts.
Context `{BitcoinLib}.

(** X9. The transaction that [build_tx1] hands to the wallet spends the
    selected inputs and pays out their total minus the fee, no more and
    no less: exactly [get_fee(2000)] is left to the miners.  Any output
    after the escrow output has a positive value; lock time is 0 and
    version 1. *)
Theorem build_tx1_conserves_value (proxy : Proxy) (quantity : Z)
    (own peer : Address) (sh : bytes) (fee_rate : FeeRate)
    (txins : list CTxIn) (total_in : Z) (tx : CTransaction) :
  find_inputs proxy (quantity + get_fee fee_rate 2000) = ok (txins, total_in) ->
  build_tx1_unsigned proxy quantity own peer sh fee_rate = ok tx ->
  vin tx = txins
  /\ sum_values (vout tx) = total_in - get_fee fee_rate 2000
  /\ Forall (fun txout => 0 < nValue txout) (drop 1 (vout tx))
  /\ nLockTime tx = 0 /\ nVersion tx = 1.
Proof.
  intros Hfind. pose proof (find_inputs_reaches _ _ _ _ Hfind) as Hge.
  unfold build_tx1_unsigned. rewrite Hfind. cbn [rbind ok].
  destruct (build_tx1_cscript own peer sh) as [e|script]; [done|].
  cbn [rbind].
  destruct (Z.gtb_spec total_in (quantity + get_fee fee_rate 2000)).
  - destruct (getrawchangeaddress proxy) as [e|ca]; [done|].
    cbn. intros [= <-]. cbn. repeat split; [lia|].
    repeat constructor. cbn. lia.
  - cbn. intros [= <-]. cbn. repeat split; [lia|]. constructor.
Qed.

(** X10. When the selected inputs are worth exactly quantity plus fee,
    [build_tx1] does not ask the wallet for a change address: the outcome
    is the same whatever [getrawchangeaddress] would answer or raise. *)
Theorem build_tx1_exact_cover_no_change (proxy : Proxy) (quantity : Z)
    (own peer : Address) (sh : bytes) (fee_rate : FeeRate)
    (txins : list CTxIn) (r : result Address) :
  find_inputs proxy (quantity + get_fee fee_rate 2000)
    = ok (txins, quantity + get_fee fee_rate 2000) ->
  build_tx1 (with_change_address proxy r) quantity own peer sh fee_rate
    = build_tx1 proxy quantity own peer sh fee_rate.
Proof.
  intros Hfind.
  assert (find_inputs (with_change_address proxy r)
            (quantity + get_fee fee_rate 2000)
          = ok (txins, quantity + get_fee fee_rate 2000)) as Hfind'
    by exact Hfind.
  unfold build_tx1, build_tx1_unsigned. rewrite Hfind, Hfind'.
  cbn [rbind ok].
  destruct (build_tx1_cscript own peer sh) as [e|script]; [done|].
  cbn [rbind].
  destruct (Z.gtb_spec (quantity + get_fee fee_rate 2000)
              (quantity + get_fee fee_rate 2000)); [lia|].
  reflexivity.
Qed.

(** X11. A wallet without negative amounts that is worth less than
    quantity plus fee makes [build_tx1] raise [FundsError], whatever the
    addresses and the secret hash are and whatever the wallet would
    answer to the other calls. *)
Theorem build_tx1_insufficient_funds (proxy : Proxy) (quantity : Z)
    (own peer : Address) (sh : bytes) (fee_rate : FeeRate)
    (unspent : list UnspentOutput) :
  listunspent proxy 0 = ok unspent ->
  Forall (fun u => 0 <= amount u) unspent ->
  sum_amounts unspent < quantity + get_fee fee_rate 2000 ->
  build_tx1 proxy quantity own peer sh fee_rate
    = raise FundsError "Insufficient funds.".
Proof.
  intros Hlist Hpos Hsum.
  unfold build_tx1, build_tx1_unsigned.
  destruct (Selection.find_inputs_cases proxy
              (quantity + get_fee fee_rate 2000) unspent Hlist)
    as [(k & _ & _ & Hcov & _) | [(-> & Hq & _) | (-> & _)]].
  - pose proof (Selection.sum_amounts_take_le unspent k Hpos). lia.
  - cbn in Hsum. lia.
  - reflexivity.
Qed.

End Facts.

Lemma build_tx1_conserves_value_witness :
  exists tx,
    build_tx1_unsigned (H := Fixtures.lib) Fixtures.wallet_150000 100000
      Fixtures.alice Fixtures.bob Fixtures.secret_hash
      (Fixtures.flat_fee 1000) = ok tx
    /\ sum_values (vout tx) = 150000 - 1000.
Proof.
  eexists. split; [reflexivity|].
  refine (proj1 (proj2 (build_tx1_conserves_value (H := Fixtures.lib)
            Fixtures.wallet_150000 100000 Fixtures.alice Fixtures.bob
            Fixtures.secret_hash (Fixtures.flat_fee 1000) _ 150000 _
            eq_refl eq_refl))).
Defined.

Lemma build_tx1_exact_cover_no_change_witness :
  build_tx1 (H := Fixtures.lib)
    (with_change_address Fixtures.wallet_150000
       (raise JSONRPCException "keypool ran out"))
    149000 Fixtures.alice Fixtures.bob Fixtures.secret_hash
    (Fixtures.flat_fee 1000)
  = build_tx1 (H := Fixtures.lib) Fixtures.wallet_150000 149000
      Fixtures.alice Fixtures.bob Fixtures.secret_hash
      (Fixtures.flat_fee 1000).
Proof.
  apply (build_tx1_exact_cover_no_change (H := Fixtures.lib)
           Fixtures.wallet_150000 149000 Fixtures.alice Fixtures.bob
           Fixtures.secret_hash (Fixtures.flat_fee 1000)
           [txin_of (Fixtures.utxo x01 150000)]).
  reflexivity.
Defined.

Lemma build_tx1_insufficient_funds_witness :
  build_tx1 (H := Fixtures.lib) Fixtures.wallet_30_50_20 100
    Fixtures.alice Fixtures.bob Fixtures.secret_hash (Fixtures.flat_fee 1)
  = raise FundsError "Insufficient funds.".
Proof.
  apply (build_tx1_insufficient_funds (H := Fixtures.lib)
           Fixtures.wallet_30_50_20 100 Fixtures.alice Fixtures.bob
           Fixtures.secret_hash (Fixtures.flat_fee 1)
           [Fixtures.utxo x01 30; Fixtures.utxo x02 50; Fixtures.utxo x03 20]).
  - reflexivity.
  - repeat constructor; cbn; lia.
  - vm_compute. reflexivity.
Defined.

End Funding.

(** ** More on the refund transaction *)

Module Refund.
Import Script Core Tx ScriptFacts Derived.

Section Facts.
Context `{BitcoinLib}.

(** What a returned refund looks like and what made [build_tx2] return
    it. *)
Lemma build_tx2_inv (proxy : Proxy) (tx1 : CTransaction) (nLockTime : Z)
    (own : Address) (fee_rate : FeeRate) (tx2 : CTransaction) :
  build_tx2 proxy tx1 nLockTime own fee_rate = ok tx2 ->
  exists prev_out seckey script,
    let txouts :=
      [mkTxOut (nValue prev_out - get_fee fee_rate 1000)
         (to_scriptPubKey own)] in
    let unsigned :=
      mkTx [mkTxIn (mkOutPoint (GetHash tx1) 0) [] 1] txouts nLockTime 1 in
    let sig :=
      key_sign seckey
        (SignatureHash (scriptPubKey prev_out) unsigned 0 SIGHASH_ALL)
      ++ py_bytes [SIGHASH_ALL] in
    vout tx1 !! 0%nat = Some prev_out
    /\ dumpprivkey proxy own = ok seckey
    /\ 0 <= nLockTime <= 0xffffffff
    /\ CScript_new bn2vch [IBytes sig; IBytes (key_pub seckey)] = ok script
    /\ tx2 = mkTx [mkTxIn (mkOutPoint (GetHash tx1) 0) script 1] txouts
               nLockTime 1.
Proof.
  unfold build_tx2, index.
  destruct (vout tx1 !! 0%nat) as [prev_out|]; [|done]. cbn [rbind ok].
  destruct (dumpprivkey proxy own) as [e|seckey]; [done|]. cbn [rbind].
  unfold CMutableTransaction, check_nLockTime.
  destruct (Z.leb_spec 0 nLockTime); [|done].
  destruct (Z.leb_spec nLockTime 4294967295); [|done].
  cbn [andb rbind ok]. unfold CMutableTxIn.
  destruct (CScript_new bn2vch _) as [e|script] eqn:Escript; [done|].
  cbn. intros [= <-]. exists prev_out, seckey, script. cbv zeta.
  repeat split; try done; lia.
Qed.


(** X13. A refund that [build_tx2] returns always has the shape the
    validator asks for (one input with sequence number 1, one output), so
    [assert_tx2_valid] accepts it exactly when the lock time it was built
    with lies in the window. *)
Theorem build_tx2_passes_validator (proxy : Proxy) (tx1 : CTransaction)
    (nLockTime : Z) (own : Address) (fee_rate : FeeRate)
    (tx2 : CTransaction) (utcnow_min utcnow_max : datetime) :
  build_tx2 proxy tx1 nLockTime own fee_rate = ok tx2 ->
  (assert_tx2_valid utcnow_min utcnow_max tx2 = ok tt <->
     epoch_seconds utcnow_min + 12 * 3600 <= nLockTime
       <= epoch_seconds utcnow_max + 72 * 3600).
Proof.
  intros (prev_out & seckey & script & _ & _ & _ & _ & ->)%build_tx2_inv.
  unfold assert_tx2_valid, add_hours, timegm_timetuple. cbn.
  destruct (Z.ltb_spec nLockTime (epoch_seconds utcnow_min + 12 * 3600));
    [split; [discriminate | lia]|].
  destruct (Z.gtb_spec nLockTime (epoch_seconds utcnow_max + 72 * 3600));
    [split; [discriminate | lia]|].
  split; [lia | done].
Qed.

(** X14. Funding then refund.  When the wallet signs the funding
    transaction without touching its outputs, the refund that [build_tx2]
    builds from it spends its output 0, pays the escrowed quantity minus
    the refund fee to the own address, and carries a signature over the
    escrow script of the funding: the script recorded in the funding
    transaction is the one [build_tx1_cscript] gives for the same
    addresses and secret hash. *)
Theorem build_tx2_after_build_tx1 (proxy : Proxy) (quantity : Z)
    (own peer : Address) (sh : bytes) (fee_rate refund_fee_rate : FeeRate)
    (unsigned tx1 tx2 : CTransaction) (nLockTime : Z) :
  build_tx1_unsigned proxy quantity own peer sh fee_rate = ok unsigned ->
  signrawtransaction proxy unsigned = ok (mkSigned tx1 true) ->
  vout tx1 = vout unsigned ->
  build_tx2 proxy tx1 nLockTime own refund_fee_rate = ok tx2 ->
  build_tx1 proxy quantity own peer sh fee_rate = ok tx1
  /\ exists escrow seckey script,
       let txouts :=
         [mkTxOut (quantity - get_fee refund_fee_rate 1000)
            (to_scriptPubKey own)] in
       let refund :=
         mkTx [mkTxIn (mkOutPoint (GetHash tx1) 0) [] 1] txouts nLockTime 1 in
       build_tx1_cscript own peer sh = ok escrow
       /\ dumpprivkey proxy own = ok seckey
       /\ tx2 = mkTx [mkTxIn (mkOutPoint (GetHash tx1) 0) script 1] txouts
                  nLockTime 1
       /\ elements script =
            ok [Some (key_sign seckey
                        (SignatureHash escrow refund 0 SIGHASH_ALL)
                      ++ py_bytes [SIGHASH_ALL]);
                Some (key_pub seckey)].
Proof.
  intros Hunsigned Hsign Hvout
    (prev_out & seckey & script & Hout & Hkey & _ & Hscript & ->)%build_tx2_inv.
  split.
  { unfold build_tx1. rewrite Hunsigned. cbn [rbind ok]. by rewrite Hsign. }
  rewrite Hvout in Hout. clear Hvout Hsign.
  unfold build_tx1_unsigned in Hunsigned.
  destruct (find_inputs proxy _) as [e|[txins total_in]]; [done|].
  cbn [rbind] in Hunsigned.
  destruct (build_tx1_cscript own peer sh) as [e|escrow]; [done|].
  cbn [rbind] in Hunsigned.
  assert (prev_out = mkTxOut quantity escrow) as ->.
  { destruct (total_in >? _); [destruct (getrawchangeaddress proxy)|];
      try discriminate Hunsigned; cbn in Hunsigned;
      injection Hunsigned as <-; cbn in Hout; by injection Hout as <-. }
  exists escrow, seckey, script. cbv zeta. cbn in *.
  repeat split; [done|].
  apply (elements_CScript_new bn2vch [IBytes _; IBytes _]);
    [repeat constructor | exact Hscript].
Qed.

End Facts.

Lemma build_tx2_passes_validator_witness :
  assert_tx2_valid (H := Fixtures.lib) Fixtures.noon Fixtures.noon
    (mkTx [mkTxIn (mkOutPoint (repeat x00 32) 0)
             [x03; OP_DUP; OP_CHECKSIG; x01; x02; x5e; xc1] 1]
       [mkTxOut 99000
          (to_scriptPubKey (BitcoinLib := Fixtures.lib) Fixtures.alice)]
       1500086400 1)
  = ok tt.
Proof.
  apply (build_tx2_passes_validator (H := Fixtures.lib) (Fixtures.wallet [])
           Fixtures.plain_tx1 1500086400 Fixtures.alice
           (Fixtures.flat_fee 1000)).
  - reflexivity.
  - cbn. lia.
Defined.

Lemma build_tx2_after_build_tx1_witness :
  exists tx1 tx2,
    build_tx1 (H := Fixtures.lib) Fixtures.wallet_150000 100000
      Fixtures.alice Fixtures.bob Fixtures.secret_hash
      (Fixtures.flat_fee 1000) = ok tx1
    /\ build_tx2 (H := Fixtures.lib) Fixtures.wallet_150000 tx1
         1500086400 Fixtures.alice (Fixtures.flat_fee 500) = ok tx2
    /\ map nValue (vout tx2) = [99500].
Proof.
  eexists _, _.
  destruct (build_tx2_after_build_tx1 (H := Fixtures.lib)
              Fixtures.wallet_150000 100000 Fixtures.alice Fixtures.bob
              Fixtures.secret_hash (Fixtures.flat_fee 1000)
              (Fixtures.flat_fee 500) _ _ _ 1500086400
              eq_refl eq_refl eq_refl eq_refl)
    as (Hbuilt & escrow & seckey & script & _ & _ & Htx2 & _).
  split; [exact Hbuilt|]. split; [reflexivity|]. reflexivity.
Defined.

End Refund.

(** ** More on the object store *)

Module StoreMore.
Import Script Core Store Tx ScriptFacts StoreFacts Derived.

(** Reading a transaction with one input. *)
Lemma snapshot_eval_single (l l0 : loc) (h : gmap loc obj) vout lt ver txin :
  h !! l = Some (OTx [l0] vout lt ver) ->
  h !! l0 = Some (OTxIn txin) ->
  snapshot l h = (ok (mkTx [txin] vout lt ver), h).
Proof.
  intros Hl Hl0. unfold snapshot, hbind at 1.
  rewrite (load_tx_eval _ _ _ _ _ _ Hl). unfold ok at 1.
  cbn [hmap]. unfold hbind at 1, hbind at 1.
  by rewrite (load_txin_eval _ _ _ Hl0).
Qed.

(** Copying a transaction with one input: the input is copied to a new
    location, then the lock time is checked, then the new transaction
    object is made. *)
Lemma from_tx_single (l l0 : loc) (h : gmap loc obj) vout lt ver txin :
  h !! l = Some (OTx [l0] vout lt ver) ->
  h !! l0 = Some (OTxIn txin) ->
  exists l1 l2,
    h !! l1 = None /\ h !! l2 = None /\ l1 <> l2
    /\ from_tx l h =
         match check_nLockTime lt with
         | inl e => (inl e, <[l1 := OTxIn txin]> h)
         | inr _ =>
             (ok l2, <[l2 := OTx [l1] vout lt ver]> (<[l1 := OTxIn txin]> h))
         end.
Proof.
  intros Hl Hl0.
  exists (fresh (dom h)), (fresh (dom (<[fresh (dom h) := OTxIn txin]> h))).
  assert (h !! fresh (dom h) = None) as Hf1
    by apply not_elem_of_dom, is_fresh.
  assert (<[fresh (dom h) := OTxIn txin]> h
            !! fresh (dom (<[fresh (dom h) := OTxIn txin]> h)) = None) as Hf2
    by apply not_elem_of_dom, is_fresh.
  split; [done|]. split; [apply lookup_insert_None in Hf2; tauto|].
  split; [intros E; rewrite <- E in Hf2; by rewrite lookup_insert_eq in Hf2|].
  unfold from_tx, hbind at 1. rewrite (load_tx_eval _ _ _ _ _ _ Hl).
  unfold ok at 1. cbn [hmap]. unfold hbind at 1, hbind at 1, from_txin.
  unfold hbind at 1. rewrite (load_txin_eval _ _ _ Hl0). unfold ok at 1.
  unfold alloc at 1, ok at 1. unfold hbind at 1, hret at 1, ok at 1.
  unfold hret at 1, ok at 1. rewrite hbind_hlift.
  destruct (check_nLockTime lt) as [e|[]]; destruct txin; reflexivity.
Qed.

(** A transaction that reads as one with a single input is an object
    with a single input object. *)
Lemma snapshot_single_inv (l : loc) (h : gmap loc obj) vout lt ver txin :
  (snapshot l h).1 = ok (mkTx [txin] vout lt ver) ->
  exists l0,
    h !! l = Some (OTx [l0] vout lt ver) /\ h !! l0 = Some (OTxIn txin).
Proof.
  destruct (snapshot l h) as [r h1] eqn:E. cbn [fst]. intros ->.
  apply snapshot_inv in E as [_ Hs].
  destruct (Hs _ eq_refl) as (vin & Hl & Hvin). cbn in Hl, Hvin.
  inversion Hvin as [|l0 ? vin' ? Hl0 Hrest]; subst.
  inversion Hrest; subst. by exists l0.
Qed.

End StoreMore.

(** ** More on the cooperative signer *)

Module Signing.
Import Script Core Store Tx ScriptFacts StoreFacts Derived StoreMore.





Section Facts.
Context `{BitcoinLib}.

(** The three ways a call of [sign_tx2] ends: it raises before anything
    is copied, and the store is as it was; or it raises [ValueError]
    while or after copying, and the store has only grown; or it returns
    the copy, whose input carries the new script. *)
Lemma sign_tx2_outcome (proxy : Proxy) (tx2 : loc) (own peer : Address)
    (sh : bytes) (h h' : gmap loc obj) (r : result loc) :
  sign_tx2 proxy tx2 own peer sh h = (r, h') ->
  (h' = h /\ exists e, r = inl e)
  \/ (h ⊆ h' /\ exists e, r = inl e /\ exn_kind e = ValueError)
  \/ exists l0 vout lt ver txin0 items end_exn a b seckey escrow script l1
            tx2',
       let sig :=
         key_sign seckey
           (SignatureHash escrow (mkTx [txin0] vout lt ver) 0 SIGHASH_ALL)
         ++ py_bytes [SIGHASH_ALL] in
       h !! tx2 = Some (OTx [l0] vout lt ver)
       /\ h !! l0 = Some (OTxIn txin0)
       /\ raw_iter (scriptSig txin0) = (items, end_exn)
       /\ sign_tx2_loop items end_exn None None = ok (Some a, Some b)
       /\ a <> [] /\ b <> []
       /\ dumpprivkey proxy own = ok seckey
       /\ build_tx1_cscript peer own sh = ok escrow
       /\ CScript_new bn2vch
            [IInt 0; IBytes sig; IBytes a; IBytes (key_pub seckey);
             IBytes b; IInt 2] = ok script
       /\ 0 <= lt <= 0xffffffff
       /\ r = ok tx2'
       /\ h !! l1 = None /\ h !! tx2' = None /\ l1 <> tx2'
       /\ h' = <[l1 := OTxIn (mkTxIn (prevout txin0) script
                                (nSequence txin0))]>
                 (<[tx2' := OTx [l1] vout lt ver]>
                    (<[l1 := OTxIn txin0]> h)).
Proof.
  intros E. unfold sign_tx2 in E. unfold hbind at 1 in E.
  destruct (load_tx tx2 h) as [[e|[[[vin2 vout2] lt2] ver2]] h1] eqn:E1;
    apply load_tx_inv in E1 as [-> Htx2];
    [injection E as <- <-; left; eauto|].
  specialize (Htx2 _ _ _ _ eq_refl).
  destruct (Nat.eqb_spec (length vin2) 1) as [Hlen|]; cbn [negb] in E;
    [|injection E as <- <-; left; eauto].
  destruct vin2 as [|l0 [|]]; try discriminate Hlen. clear Hlen.
  unfold hbind at 1 in E. rewrite hbind_hlift in E.
  change (index [l0] 0) with (ok l0) in E. unfold ok at 1 in E.
  destruct (load_txin l0 h) as [[e|txin0] h1] eqn:E2;
    apply load_txin_inv in E2 as [-> Hl0];
    [injection E as <- <-; left; eauto|].
  specialize (Hl0 _ eq_refl).
  destruct (raw_iter (scriptSig txin0)) as [items end_exn] eqn:Hiter.
  rewrite hbind_hlift in E.
  destruct (sign_tx2_loop items end_exn None None)
    as [e|[other_sig other_pubkey]] eqn:Hloop;
    [injection E as <- <-; left; eauto|].
  destruct other_sig as [[|s0 a]|]; cbn [py_not orb] in E;
    try (injection E as <- <-; left; by eauto).
  destruct other_pubkey as [[|p0 b]|]; cbn [py_not orb] in E;
    try (injection E as <- <-; left; by eauto).
  rewrite hbind_hlift in E.
  destruct (dumpprivkey proxy own) as [e|seckey] eqn:Hkey;
    [injection E as <- <-; left; eauto|].
  rewrite hbind_hlift in E.
  destruct (build_tx1_cscript peer own sh) as [e|escrow] eqn:Hescrow;
    [injection E as <- <-; left; eauto|].
  unfold hbind at 1 in E.
  rewrite (snapshot_eval_single _ _ _ _ _ _ _ Htx2 Hl0) in E.
  unfold ok at 1 in E. unfold hbind at 1 in E.
  destruct (from_tx_single tx2 l0 h vout2 lt2 ver2 txin0 Htx2 Hl0)
    as (l1 & l2 & Hf1 & Hf2 & Hne & Hcopy).
  rewrite Hcopy in E. clear Hcopy.
  destruct (check_nLockTime lt2) as [e|[]] eqn:Hcheck.
  { injection E as <- <-. right. left.
    split; [by apply insert_subseteq|]. exists e. split; [done|].
    unfold check_nLockTime in Hcheck.
    destruct (_ && _); [done|]. by injection Hcheck as <-. }
  unfold ok at 1 in E. rewrite hbind_hlift in E.
  cbn [the_bytes default from_option id] in E.
  destruct (CScript_new bn2vch _) as [e|script] eqn:Hscript.
  { injection E as <- <-. right. left. split.
    - apply insert_subseteq_r; [done|]. by apply insert_subseteq.
    - exists e. split; [done|]. by eapply ScriptMore.CScript_new_raises. }
  unfold hbind at 1 in E.
  rewrite (load_tx_eval l2 _ [l1] vout2 lt2 ver2) in E
    by apply lookup_insert_eq.
  unfold ok at 1 in E. rewrite hbind_hlift in E.
  change (index [l1] 0) with (ok l1) in E. unfold ok at 1 in E.
  unfold hbind at 1, store_scriptSig, hbind at 1 in E.
  rewrite (load_txin_eval l1 _ txin0) in E
    by (rewrite lookup_insert_ne by done; apply lookup_insert_eq).
  unfold ok at 1, hret in E. injection E as <- <-.
  right. right.
  exists l0, vout2, lt2, ver2, txin0, items, end_exn, (s0 :: a), (p0 :: b),
    seckey, escrow, script, l1, l2.
  unfold check_nLockTime in Hcheck.
  destruct (Z.leb_spec 0 lt2); [|done].
  destruct (Z.leb_spec lt2 4294967295); [|done].
  cbv zeta. repeat split; try done; lia.
Qed.


(** With one element with data in hand and none to come, the loop ends
    with the second variable never assigned. *)
Lemma sign_tx2_loop_one (items : list raw_item) (a : bytes) :
  omap id (map (fun it : raw_item => it.1.2) items) = [] ->
  sign_tx2_loop items None (Some a) None = ok (Some a, None).
Proof.
  induction items as [|[[o d] i] rest IH]; cbn; [done|].
  destruct d; cbn; [done|]. exact IH.
Qed.

(** Fewer than two elements with data leave the second variable [None]. *)
Lemma sign_tx2_loop_few (items : list raw_item) :
  (length (omap id (map (fun it : raw_item => it.1.2) items)) < 2)%nat ->
  exists x, sign_tx2_loop items None None None = ok (x, None).
Proof.
  induction items as [|[[o d] i] rest IH]; cbn; [by eexists|].
  destruct d as [a|]; cbn.
  - intros Hlen. exists (Some a). apply sign_tx2_loop_one.
    destruct (omap id _); [done | cbn in Hlen; lia].
  - exact IH.
Qed.

(** An element behind the second element with data makes the loop
    raise, whatever the generator would do later. *)
Lemma sign_tx2_loop_many (items : list raw_item) (end_exn : option exn)
    (n m : nat) (a b : bytes) (x : option bytes)
    (rest : list (option bytes)) :
  map (fun it : raw_item => it.1.2) items
    = replicate n None ++ Some a :: replicate m None ++ Some b :: x :: rest ->
  sign_tx2_loop items end_exn None None
    = raise TradeError
        "TX2 input has more than two elements, expected exactly two.".
Proof.
  revert items.
  induction n as [|n IHn]; intros [|[[o d] i] items]; cbn; try done.
  - intros [= -> Hrest]. revert items Hrest.
    induction m as [|m IHm]; intros [|[[o' d'] i'] items]; cbn; try done.
    + intros [= -> Hrest]. by destruct items as [|[[? ?] ?] ?].
    + intros [= -> Hrest]. by apply IHm.
  - intros [= -> Hrest]. by apply IHn.
Qed.


(** A run that ends in the loop. *)
Lemma sign_tx2_refused (proxy : Proxy) (tx2 l0 : loc) (own peer : Address)
    (sh : bytes) (h : gmap loc obj) (vout : list CTxOut) (lt ver : Z)
    (txin0 : CTxIn) (items : list raw_item) (end_exn : option exn)
    (e : exn) :
  h !! tx2 = Some (OTx [l0] vout lt ver) ->
  h !! l0 = Some (OTxIn txin0) ->
  raw_iter (scriptSig txin0) = (items, end_exn) ->
  sign_tx2_loop items end_exn None None = inl e ->
  sign_tx2 proxy tx2 own peer sh h = (inl e, h).
Proof.
  intros Htx2 Hl0 Hiter Hloop.
  unfold sign_tx2, hbind at 1. rewrite (load_tx_eval _ _ _ _ _ _ Htx2).
  unfold ok at 1. cbn [length Nat.eqb negb].
  unfold hbind at 1. rewrite hbind_hlift.
  change (index [l0] 0) with (ok l0). unfold ok at 1.
  rewrite (load_txin_eval _ _ _ Hl0). unfold ok at 1.
  rewrite Hiter. rewrite hbind_hlift. by rewrite Hloop.
Qed.

(** A run that ends in the test behind the loop. *)
Lemma sign_tx2_short (proxy : Proxy) (tx2 l0 : loc) (own peer : Address)
    (sh : bytes) (h : gmap loc obj) (vout : list CTxOut) (lt ver : Z)
    (txin0 : CTxIn) (items : list raw_item) (end_exn : option exn)
    (other_sig other_pubkey : option bytes) :
  h !! tx2 = Some (OTx [l0] vout lt ver) ->
  h !! l0 = Some (OTxIn txin0) ->
  raw_iter (scriptSig txin0) = (items, end_exn) ->
  sign_tx2_loop items end_exn None None = ok (other_sig, other_pubkey) ->
  py_not other_sig || py_not other_pubkey = true ->
  sign_tx2 proxy tx2 own peer sh h
    = (raise TradeError
         "TX2 input has less than two elements, expected exactly two.", h).
Proof.
  intros Htx2 Hl0 Hiter Hloop Hnot.
  unfold sign_tx2, hbind at 1. rewrite (load_tx_eval _ _ _ _ _ _ Htx2).
  unfold ok at 1. cbn [length Nat.eqb negb].
  unfold hbind at 1. rewrite hbind_hlift.
  change (index [l0] 0) with (ok l0). unfold ok at 1.
  rewrite (load_txin_eval _ _ _ Hl0). unfold ok at 1.
  rewrite Hiter. rewrite hbind_hlift. rewrite Hloop. unfold ok at 1.
  by rewrite Hnot.
Qed.



(** The six elements of the script that [sign_tx2] writes. *)
Lemma elements_cosigned (sig a pub b : bytes) (script : CScript) :
  CScript_new bn2vch [IInt 0; IBytes sig; IBytes a; IBytes pub; IBytes b;
                      IInt 2] = ok script ->
  elements script = ok [Some []; Some sig; Some a; Some pub; Some b; None].
Proof.
  intros Escript.
  apply (elements_CScript_new bn2vch
           [IInt 0; IBytes sig; IBytes a; IBytes pub; IBytes b; IInt 2]);
    [repeat constructor | exact Escript].
Qed.


(** The elements of a script and what the generator yields. *)
Lemma elements_ok_inv (s : CScript) (ds : list (option bytes)) :
  elements s = ok ds ->
  exists items,
    raw_iter s = (items, None)
    /\ map (fun it : raw_item => it.1.2) items = ds.
Proof.
  unfold elements. destruct (raw_iter s) as [items [e|]]; [done|].
  intros [= <-]. by exists items.
Qed.




(** X17. [sign_tx2] signs once.  A transaction that [sign_tx2] returned
    carries six elements, so a second call on it, by whichever party,
    raises [TradeError] for too many elements and leaves the store as it
    is. *)
Theorem sign_tx2_refuses_own_output (proxy proxy' : Proxy) (tx2 tx2' : loc)
    (own peer own' peer' : Address) (sh sh' : bytes)
    (h h' : gmap loc obj) :
  sign_tx2 proxy tx2 own peer sh h = (ok tx2', h') ->
  sign_tx2 proxy' tx2' own' peer' sh' h'
    = (raise TradeError
         "TX2 input has more than two elements, expected exactly two.", h').
Proof.
  intros E. apply sign_tx2_outcome in E
    as [[_ [e [=]]] | [[_ (e & [=] & _)] | E]].
  destruct E as (l0 & vout & lt & ver & txin0 & items & end_exn & a & b
                 & seckey & escrow & script & l1 & l2 & E).
  cbv zeta in E.
  destruct E as (Htx2 & Hl0 & Hiter & Hloop & Ha & Hb & Hkey & Hescrow
                 & Escript & Hlt & [= <-] & Hf1 & Hf2 & Hne & ->).
  apply elements_cosigned, elements_ok_inv in Escript
    as (items' & Hiter' & Hdata').
  eapply sign_tx2_refused.
  - rewrite lookup_insert_ne by done. apply lookup_insert_eq.
  - apply lookup_insert_eq.
  - exact Hiter'.
  - apply (sign_tx2_loop_many items' None 0 0 _ _ _ _ Hdata').
Qed.

(** X18. Too few.  A script with fewer than two elements that push data
    is refused with [TradeError], whatever else it holds, and nothing is
    written. *)
Theorem sign_tx2_too_few_elements (proxy : Proxy) (tx2 : loc)
    (own peer : Address) (sh : bytes) (h : gmap loc obj)
    (vout : list CTxOut) (lt ver : Z) (txin0 : CTxIn)
    (ds : list (option bytes)) :
  (snapshot tx2 h).1 = ok (mkTx [txin0] vout lt ver) ->
  elements (scriptSig txin0) = ok ds ->
  (length (omap id ds) < 2)%nat ->
  sign_tx2 proxy tx2 own peer sh h
    = (raise TradeError
         "TX2 input has less than two elements, expected exactly two.", h).
Proof.
  intros (l0 & Htx2 & Hl0)%snapshot_single_inv
    (items & Hiter & <-)%elements_ok_inv Hfew.
  destruct (sign_tx2_loop_few items Hfew) as [x Hloop].
  eapply sign_tx2_short; eauto. cbn. apply orb_true_r.
Qed.

(** X19. Too many.  A script that holds anything behind its second
    element with data is refused with [TradeError], and nothing is
    written. *)
Theorem sign_tx2_too_many_elements (proxy : Proxy) (tx2 : loc)
    (own peer : Address) (sh : bytes) (h : gmap loc obj)
    (vout : list CTxOut) (lt ver : Z) (txin0 : CTxIn) (n m : nat)
    (a b : bytes) (x : option bytes) (rest : list (option bytes)) :
  (snapshot tx2 h).1 = ok (mkTx [txin0] vout lt ver) ->
  elements (scriptSig txin0)
    = ok (replicate n None ++ Some a :: replicate m None
          ++ Some b :: x :: rest) ->
  sign_tx2 proxy tx2 own peer sh h
    = (raise TradeError
         "TX2 input has more than two elements, expected exactly two.", h).
Proof.
  intros (l0 & Htx2 & Hl0)%snapshot_single_inv
    (items & Hiter & Hdata)%elements_ok_inv.
  eapply sign_tx2_refused; eauto. by eapply sign_tx2_loop_many.
Qed.



End Facts.



(** X17 on the fixtures: the first call returns object 4, and a call on
    object 4 by the other party raises. *)
Lemma sign_tx2_refuses_own_output_witness :
  let out :=
    sign_tx2 (H := Fixtures.lib) (Fixtures.wallet []) 1%positive
      Fixtures.alice Fixtures.bob Fixtures.secret_hash
      (Fixtures.store_with Fixtures.two_elements) in
  out.1 = ok 4%positive
  /\ sign_tx2 (H := Fixtures.lib) (Fixtures.wallet []) 4%positive
       Fixtures.bob Fixtures.alice Fixtures.secret_hash out.2
     = (raise TradeError
          "TX2 input has more than two elements, expected exactly two.",
        out.2).
Proof.
  cbv zeta. split; [vm_compute; reflexivity|].
  apply (sign_tx2_refuses_own_output (H := Fixtures.lib)
           (Fixtures.wallet []) (Fixtures.wallet []) 1%positive 4%positive
           Fixtures.alice Fixtures.bob Fixtures.bob Fixtures.alice
           Fixtures.secret_hash Fixtures.secret_hash
           (Fixtures.store_with Fixtures.two_elements)).
  vm_compute. reflexivity.
Defined.

(** X18 at a script of three elements of which one pushes data: [OP_1],
    [OP_1] and a one-byte string. *)
Lemma sign_tx2_too_few_elements_witness :
  sign_tx2 (H := Fixtures.lib) (Fixtures.wallet []) 1%positive
    Fixtures.alice Fixtures.bob Fixtures.secret_hash
    (Fixtures.store_with [OP_1; OP_1; x01; xaa])
  = (raise TradeError
       "TX2 input has less than two elements, expected exactly two.",
     Fixtures.store_with [OP_1; OP_1; x01; xaa]).
Proof.
  apply (sign_tx2_too_few_elements (H := Fixtures.lib) (Fixtures.wallet [])
           1%positive Fixtures.alice Fixtures.bob Fixtures.secret_hash
           (Fixtures.store_with [OP_1; OP_1; x01; xaa])
           [Fixtures.a_txout] 1500086400 1
           (mkTxIn (mkOutPoint (repeat x00 32) 0) [OP_1; OP_1; x01; xaa] 1)
           [None; None; Some [xaa]]).
  - vm_compute. reflexivity.
  - vm_compute. reflexivity.
  - cbn. lia.
Defined.

(** X19 at the two byte strings followed by [OP_1]. *)
Lemma sign_tx2_too_many_elements_witness :
  sign_tx2 (H := Fixtures.lib) (Fixtures.wallet []) 1%positive
    Fixtures.alice Fixtures.bob Fixtures.secret_hash
    (Fixtures.store_with [x01; xaa; x01; xbb; OP_1])
  = (raise TradeError
       "TX2 input has more than two elements, expected exactly two.",
     Fixtures.store_with [x01; xaa; x01; xbb; OP_1]).
Proof.
  apply (sign_tx2_too_many_elements (H := Fixtures.lib) (Fixtures.wallet [])
           1%positive Fixtures.alice Fixtures.bob Fixtures.secret_hash
           (Fixtures.store_with [x01; xaa; x01; xbb; OP_1])
           [Fixtures.a_txout] 1500086400 1
           (mkTxIn (mkOutPoint (repeat x00 32) 0)
              [x01; xaa; x01; xbb; OP_1] 1)
           0 0 [xaa] [xbb] None []).
  - vm_compute. reflexivity.
  - vm_compute. reflexivity.
Defined.



End Signing.

(** ** More on the secret-spend builder *)

Module Spend.
Import Script Core Tx ScriptFacts Derived.

Section Facts.
Context `{BitcoinLib}.

(** What made [build_tx3_spend] return, and what it returned. *)
Lemma build_tx3_spend_inv (globals : gmap string global) (proxy : Proxy)
    (tx1 : CTransaction) (secret : bytes) (own : Address)
    (tx : CTransaction) :
  build_tx3_spend globals proxy tx1 secret own = ok tx ->
  exists fee_rate seckey prev_out script,
    let txouts :=
      [mkTxOut (nValue prev_out - get_fee fee_rate 1000)
         (to_scriptPubKey own)] in
    let unsigned :=
      mkTx [mkTxIn (mkOutPoint (GetHash tx1) 0) [] 1] txouts 0 1 in
    let sig :=
      key_sign seckey
        (SignatureHash (scriptPubKey prev_out) unsigned 0 SIGHASH_ALL)
      ++ py_bytes [SIGHASH_ALL] in
    globals !! "fee_rate"%string = Some (GFeeRate fee_rate)
    /\ globals !! "seckey"%string = Some (GKey seckey)
    /\ vout tx1 !! 0%nat = Some prev_out
    /\ CScript_new bn2vch
         [IBytes secret; IBytes sig; IBytes (key_pub seckey); IInt 0]
       = ok script
    /\ tx = mkTx [mkTxIn (mkOutPoint (GetHash tx1) 0) script 1] txouts 0 1.
Proof.
  unfold build_tx3_spend, load_global, index.
  destruct (globals !! "fee_rate"%string) as [[| |fee_rate|]|]; try done.
  cbn [rbind ok as_fee_rate].
  destruct (vout tx1 !! 0%nat) as [prev_out|]; [|done]. cbn [rbind ok].
  unfold CMutableTransaction, CMutableTxIn.
  change (check_nLockTime 0) with (ok tt). cbn [rbind ok].
  destruct (globals !! "seckey"%string) as [[| | |seckey]|]; try done.
  cbn [rbind ok as_key].
  destruct (CScript_new bn2vch _) as [e|script] eqn:Escript; [done|].
  cbn. intros [= <-]. exists fee_rate, seckey, prev_out, script.
  cbv zeta. repeat split; done.
Qed.


(** X23. What a returned spend is.  [build_tx3_spend] returns only when
    the module has a fee rate under the name [fee_rate] and a key under
    the name [seckey]; the transaction then spends output 0 of [tx1] with
    sequence number 1 and lock time 0, pays that output's value minus the
    fee for 1000 bytes to the own address, and unlocks with four
    elements: the secret, the signature over the spent output's script,
    the public key and [OP_0]. *)
Theorem build_tx3_spend_returns (globals : gmap string global)
    (proxy : Proxy) (tx1 : CTransaction) (secret : bytes) (own : Address)
    (tx : CTransaction) :
  build_tx3_spend globals proxy tx1 secret own = ok tx ->
  exists fee_rate seckey prev_out script,
    let txouts :=
      [mkTxOut (nValue prev_out - get_fee fee_rate 1000)
         (to_scriptPubKey own)] in
    let unsigned :=
      mkTx [mkTxIn (mkOutPoint (GetHash tx1) 0) [] 1] txouts 0 1 in
    let sig :=
      key_sign seckey
        (SignatureHash (scriptPubKey prev_out) unsigned 0 SIGHASH_ALL)
      ++ py_bytes [SIGHASH_ALL] in
    globals !! "fee_rate"%string = Some (GFeeRate fee_rate)
    /\ globals !! "seckey"%string = Some (GKey seckey)
    /\ vout tx1 !! 0%nat = Some prev_out
    /\ tx = mkTx [mkTxIn (mkOutPoint (GetHash tx1) 0) script 1] txouts 0 1
    /\ elements script
       = ok [Some secret; Some sig; Some (key_pub seckey); Some []].
Proof.
  intros (fee_rate & seckey & prev_out & script & Hinv)%build_tx3_spend_inv.
  cbv zeta in Hinv. destruct Hinv as (Hfee & Hkey & Hout & Escript & ->).
  exists fee_rate, seckey, prev_out, script. cbv zeta.
  repeat split; try done.
  apply (elements_CScript_new bn2vch
           [IBytes secret; IBytes _; IBytes (key_pub seckey); IInt 0]);
    [repeat constructor | exact Escript].
Qed.

(** X24. Spend and refund of the same funding transaction.  Built for
    the same address with the same fee rate, the transaction of
    [build_tx3_spend] and the refund of [build_tx2] spend the same
    output with the same sequence number and have the same single output;
    they differ in the lock time, which is 0 for the spend, and in the
    unlocking script. *)
Theorem build_tx3_spend_mirrors_build_tx2 (globals : gmap string global)
    (proxy proxy' : Proxy) (tx1 spend refund : CTransaction)
    (secret : bytes) (own : Address) (fee_rate : FeeRate) (nLockTime : Z) :
  globals !! "fee_rate"%string = Some (GFeeRate fee_rate) ->
  build_tx3_spend globals proxy tx1 secret own = ok spend ->
  build_tx2 proxy' tx1 nLockTime own fee_rate = ok refund ->
  vout spend = vout refund
  /\ map prevout (vin spend) = map prevout (vin refund)
  /\ map nSequence (vin spend) = map nSequence (vin refund)
  /\ nVersion spend = nVersion refund
  /\ Core.nLockTime spend = 0
  /\ Core.nLockTime refund = nLockTime.
Proof.
  intros Hfee (fee_rate' & seckey & prev_out & script & Hs)%build_tx3_spend_inv
    (prev_out' & seckey' & script' & Hr)%Refund.build_tx2_inv.
  cbv zeta in Hs, Hr.
  destruct Hs as (Hfee' & _ & Hout & _ & ->).
  destruct Hr as (Hout' & _ & _ & _ & ->).
  rewrite Hfee in Hfee'. injection Hfee' as <-.
  rewrite Hout in Hout'. injection Hout' as <-.
  done.
Qed.

End Facts.

(** The module with the two names bound by the caller. *)
Lemma build_tx3_spend_returns_witness :
  let globals :=
    <["fee_rate"%string := GFeeRate (Fixtures.flat_fee 1000)]>
      (<["seckey"%string := GKey [x5e; xc1]]> module_globals) in
  let tx :=
    mkTx [mkTxIn (mkOutPoint (repeat x00 32) 0)
            [x01; x5e; x03; OP_DUP; OP_CHECKSIG; x01; x02; x5e; xc1; OP_0]
            1]
      [mkTxOut 99000
         (to_scriptPubKey (BitcoinLib := Fixtures.lib) Fixtures.alice)]
      0 1 in
  exists fee_rate seckey prev_out script,
    globals !! "fee_rate"%string = Some (GFeeRate fee_rate)
    /\ globals !! "seckey"%string = Some (GKey seckey)
    /\ vout Fixtures.plain_tx1 !! 0%nat = Some prev_out
    /\ tx = mkTx [mkTxIn (mkOutPoint
                            (GetHash (BitcoinLib := Fixtures.lib)
                               Fixtures.plain_tx1) 0) script 1]
              [mkTxOut (nValue prev_out - get_fee fee_rate 1000)
                 (to_scriptPubKey (BitcoinLib := Fixtures.lib)
                    Fixtures.alice)] 0 1
    /\ elements script
       = ok [Some [x5e];
             Some (key_sign (BitcoinLib := Fixtures.lib) seckey
                     (SignatureHash (BitcoinLib := Fixtures.lib)
                        (scriptPubKey prev_out)
                        (mkTx [mkTxIn (mkOutPoint
                                         (GetHash (BitcoinLib := Fixtures.lib)
                                            Fixtures.plain_tx1) 0) [] 1]
                           [mkTxOut (nValue prev_out - get_fee fee_rate 1000)
                              (to_scriptPubKey (BitcoinLib := Fixtures.lib)
                                 Fixtures.alice)] 0 1) 0 SIGHASH_ALL)
                   ++ py_bytes (BitcoinLib := Fixtures.lib) [SIGHASH_ALL]);
             Some (key_pub (BitcoinLib := Fixtures.lib) seckey); Some []].
Proof.
  cbv zeta.
  apply (build_tx3_spend_returns (H := Fixtures.lib) _ (Fixtures.wallet [])
           Fixtures.plain_tx1 [x5e] Fixtures.alice).
  vm_compute. reflexivity.
Defined.

Lemma build_tx3_spend_mirrors_build_tx2_witness :
  let spend :=
    mkTx [mkTxIn (mkOutPoint (repeat x00 32) 0)
            [x01; x5e; x03; OP_DUP; OP_CHECKSIG; x01; x02; x5e; xc1; OP_0]
            1]
      [mkTxOut 99000
         (to_scriptPubKey (BitcoinLib := Fixtures.lib) Fixtures.alice)]
      0 1 in
  let refund :=
    mkTx [mkTxIn (mkOutPoint (repeat x00 32) 0)
            [x03; OP_DUP; OP_CHECKSIG; x01; x02; x5e; xc1] 1]
      [mkTxOut 99000
         (to_scriptPubKey (BitcoinLib := Fixtures.lib) Fixtures.alice)]
      1500086400 1 in
  vout spend = vout refund
  /\ map prevout (vin spend) = map prevout (vin refund)
  /\ map nSequence (vin spend) = map nSequence (vin refund)
  /\ nVersion spend = nVersion refund
  /\ nLockTime spend = 0
  /\ nLockTime refund = 1500086400.
Proof.
  cbv zeta.
  apply (build_tx3_spend_mirrors_build_tx2 (H := Fixtures.lib)
           (<["fee_rate"%string := GFeeRate (Fixtures.flat_fee 1000)]>
              (<["seckey"%string := GKey [x5e; xc1]]> module_globals))
           (Fixtures.wallet []) (Fixtures.wallet []) Fixtures.plain_tx1 _ _
           [x5e] Fixtures.alice (Fixtures.flat_fee 1000) 1500086400).
  - vm_compute. reflexivity.
  - vm_compute. reflexivity.
  - vm_compute. reflexivity.
Defined.

End Spend.
